(** * Converter-Pro: format classification, dispatch and page composition

    A shallow embedding of
      - [src/components/file-converter.tsx] (module [Client]): the format
        tables, [getFileExtension], [getAvailableOutputFormats] and the
        per-file branch of [handleConvert];
      - [src/app/api/convert/route.ts] (module [Server]): [POST] and the six
        converters it dispatches to.

    JavaScript numbers are IEEE-754 binary64 values and are modelled by
    Rocq's primitive floats.  A string is held as the bytes of its UTF-8
    encoding; [toLowerCase] and [toUpperCase] are the ASCII mappings on pure
    ASCII strings and the engine's Unicode tables, a parameter, on all
    others.  An object literal is a finite map of its own properties, and a
    look-up goes on to [Object.prototype].  Calls into sharp, pdf-lib,
    mammoth, the canvas and [fetch], and the header check of the response
    constructor, are parameters of the development. *)

From Stdlib Require Import Ascii String Floats.
From stdpp Require Import base strings gmap list.

Local Open Scope string_scope.
Local Open Scope list_scope.

(** ** JavaScript string and array primitives *)

Module JS.

(** [s.split(sep)] for a one-character separator: always at least one piece. *)
Fixpoint split (sep : ascii) (s : string) : list string :=
  match s with
  | EmptyString => [""]
  | String c s' =>
      if Ascii.eqb c sep then "" :: split sep s'
      else match split sep s' with
           | [] => [String c ""]
           | piece :: rest => String c piece :: rest
           end
  end.

(** [arr.pop()] as used on a fresh array: its last element, if any. *)
Definition pop (l : list string) : option string := last l.

Definition isUpper (c : ascii) : bool :=
  let n := nat_of_ascii c in (65 <=? n)%nat && (n <=? 90)%nat.

Definition isLower (c : ascii) : bool :=
  let n := nat_of_ascii c in (97 <=? n)%nat && (n <=? 122)%nat.

Definition lowerChar (c : ascii) : ascii :=
  if isUpper c then ascii_of_nat (nat_of_ascii c + 32) else c.

Definition upperChar (c : ascii) : ascii :=
  if isLower c then ascii_of_nat (nat_of_ascii c - 32) else c.

Fixpoint mapChars (f : ascii → ascii) (s : string) : string :=
  match s with
  | EmptyString => EmptyString
  | String c s' => String (f c) (mapChars f s')
  end.

Definition isAsciiChar (c : ascii) : bool := (nat_of_ascii c <? 128)%nat.

(** No character of the string lies outside ASCII. *)
Fixpoint isAscii (s : string) : bool :=
  match s with
  | EmptyString => true
  | String c s' => isAsciiChar c && isAscii s'
  end.

(** What the engine's Unicode case tables make of a string. *)
Class Unicode := {
  unicodeLower : string → string;
  unicodeUpper : string → string
}.

Section CaseMapping.

Context `{Unicode}.

(** [s.toLowerCase()] and [s.toUpperCase()]: on a pure ASCII string only
    the letters A-Z and a-z change; any other string goes through the
    engine's tables. *)
Definition toLowerCase (s : string) : string :=
  if isAscii s then mapChars lowerChar s else unicodeLower s.

Definition toUpperCase (s : string) : string :=
  if isAscii s then mapChars upperChar s else unicodeUpper s.

End CaseMapping.

(** The property names every object literal inherits from
    [Object.prototype]. *)
Definition objectPrototypeKeys : list string :=
  ["constructor"; "__proto__"; "hasOwnProperty"; "isPrototypeOf";
   "propertyIsEnumerable"; "toLocaleString"; "toString"; "valueOf";
   "__defineGetter__"; "__defineSetter__"; "__lookupGetter__";
   "__lookupSetter__"].

(** What [object[key]] finds: an own property, a property inherited from
    [Object.prototype] (a function, or the prototype itself: truthy, and
    equal to no string), or [undefined]. *)
Inductive Property (A : Type) : Type :=
| Own (value : A)
| Inherited (key : string)
| Undefined.
Arguments Own {A} value.
Arguments Inherited {A} key.
Arguments Undefined {A}.

(** [arr.includes(x)] on an array of strings. *)
Definition includes (l : list string) (x : string) : bool :=
  existsb (String.eqb x) l.

(** [arr.includes(x!)] where [x] may be [undefined]. *)
Definition includesOpt (l : list string) (x : option string) : bool :=
  match x with
  | Some s => includes l s
  | None => false
  end.

(** Truthiness of a string, and [a || b] on strings. *)
Definition truthyStr (s : string) : bool := negb (String.eqb s "").

Definition orStr (a : option string) (b : string) : string :=
  match a with
  | Some s => if truthyStr s then s else b
  | None => b
  end.

(** The string contains the character. *)
Fixpoint hasChar (c : ascii) (s : string) : bool :=
  match s with
  | EmptyString => false
  | String d s' => Ascii.eqb d c || hasChar c s'
  end.

(** [object[key]] on an object literal with the own properties [object]. *)
Definition getProperty {A} (object : gmap string A) (key : string) : Property A :=
  match object !! key with
  | Some value => Own value
  | None => if includes objectPrototypeKeys key then Inherited key else Undefined
  end.

(** What a computation yields: a value, or a thrown [Error] with its message. *)
Inductive result (A : Type) : Type :=
| Ok (a : A)
| Throw (message : string).
Arguments Ok {A} a.
Arguments Throw {A} message.

End JS.

Import JS.

(** An uploaded file: its name and its bytes. *)
Record File := mkFile { name : string; content : string }.

(** ** The client component: [file-converter.tsx] *)

Module Client.

Definition supportedFormats : gmap string (list string) :=
  list_to_map
    [ ("document", ["pdf"; "docx"; "doc"; "txt"; "rtf"]);
      ("presentation", ["pptx"; "ppt"; "odp"]);
      ("image", ["jpg"; "jpeg"; "png"; "gif"; "bmp"; "webp"; "svg"]);
      ("other", ["csv"; "xlsx"; "xls"]) ].

Definition formatCategories_entries : list (string * string) :=
  [ ("pdf", "document"); ("docx", "document"); ("doc", "document");
    ("txt", "document"); ("rtf", "document");
    ("pptx", "presentation"); ("ppt", "presentation"); ("odp", "presentation");
    ("jpg", "image"); ("jpeg", "image"); ("png", "image"); ("gif", "image");
    ("bmp", "image"); ("webp", "image"); ("svg", "image");
    ("csv", "other"); ("xlsx", "other"); ("xls", "other") ].

Definition formatCategories : gmap string string :=
  list_to_map formatCategories_entries.

(** [supportedFormats.image] and [supportedFormats.document]: static fields. *)
Definition supportedFormats_image : list string :=
  default [] (supportedFormats !! "image").
Definition supportedFormats_document : list string :=
  default [] (supportedFormats !! "document").

Section WithUnicode.

Context `{Unicode}.

Definition getFileExtension (filename : string) : string :=
  orStr (toLowerCase <$> pop (split "."%char filename)) "".

(** [files] is the component state; the first file decides the menu.
    [formatCategories[inputFormat]] is falsy only when it is [undefined]:
    for a name inherited from [Object.prototype] it is a function or an
    object, which equals neither "image" nor "document", so the last branch
    is reached, and there its string form names no property of
    [supportedFormats].  [supportedFormats[inputCategory].filter] throws a
    [TypeError] when the look-up yields [undefined], and when it yields an
    inherited property, which has no [filter]. *)
Definition getAvailableOutputFormats (files : list File) : result (list string) :=
  match files with
  | [] => Ok []
  | file0 :: _ =>
      let inputFormat := getFileExtension (name file0) in
      match getProperty formatCategories inputFormat with
      | Undefined => Ok []
      | Inherited _ =>
          if String.eqb inputFormat "pdf" then
            Ok (supportedFormats_image
                  ++ filter (λ format, format ≠ "pdf") supportedFormats_document)
          else
            Throw "TypeError: Cannot read properties of undefined (reading 'filter')"
      | Own inputCategory =>
          if String.eqb inputCategory "image" then
            Ok (filter (λ format, format ≠ inputFormat) supportedFormats_image
                  ++ ["pdf"])
          else if String.eqb inputFormat "pdf" then
            Ok (supportedFormats_image
                  ++ filter (λ format, format ≠ "pdf") supportedFormats_document)
          else if String.eqb inputCategory "document" then
            Ok (filter (λ format, format ≠ inputFormat) supportedFormats_document
                  ++ ["pdf"])
          else
            match getProperty supportedFormats inputCategory with
            | Own formats => Ok (filter (λ format, format ≠ inputFormat) formats)
            | Inherited _ =>
                Throw "TypeError: supportedFormats[inputCategory].filter is not a function"
            | Undefined =>
                Throw "TypeError: Cannot read properties of undefined (reading 'filter')"
            end
      end
  end.

(** *** [handleConvert]

    What the handler does to the outside world is recorded as a trace:
    a canvas conversion in the browser, or a request to the server.  Of the
    component state the converted files and the error text are kept; the
    progress bar and the busy flag are left out. *)

Definition Blob := string.

Record Response := mkResponse { ok : bool; statusText : string; blob : Blob }.

Inductive Effect : Type :=
| CanvasToPdf (file : File)
| CanvasToImage (file : File) (targetFormat : string)
| Fetch (url : string) (file : File) (outputFormat : string).

Definition isFetch (e : Effect) : bool :=
  match e with
  | Fetch _ _ _ => true
  | _ => false
  end.

(** The browser: the two canvas conversions, [fetch] and
    [URL.createObjectURL]. *)
Record Browser := mkBrowser {
  convertImageToPdf : File → result Blob;
  convertImageFormat : File → string → result Blob;
  fetch : string → File → string → result Response;
  createObjectURL : Blob → string
}.

Record ConvertedFile := mkConverted { filename : string; url : string }.

Record State := mkState { convertedFiles : list ConvertedFile; error : string }.

Section HandleConvert.

Variable browser : Browser.

(** The loop body up to [convertedBlob]. *)
Definition convertBlob (file : File) (outputFormat : string)
  : list Effect * result Blob :=
  let inputFormat := getFileExtension (name file) in
  if String.eqb inputFormat "png" || String.eqb inputFormat "jpg"
     || String.eqb inputFormat "jpeg" then
    if String.eqb outputFormat "pdf" then
      ([CanvasToPdf file], convertImageToPdf browser file)
    else
      ([CanvasToImage file outputFormat],
       convertImageFormat browser file outputFormat)
  else
    ([Fetch "/api/convert" file outputFormat],
     match fetch browser "/api/convert" file outputFormat with
     | Throw message => Throw message
     | Ok response =>
         if ok response then Ok (blob response)
         else Throw ("Server conversion failed: " ++ statusText response)%string
     end).

Definition stem (filename : string) : string :=
  match split "."%char filename with
  | first :: _ => first
  | [] => "undefined"
  end.

(** The [for] loop inside [try]: a thrown error leaves the loop and is
    stored by the [catch] block. *)
Fixpoint convertFiles (files : list File) (outputFormat : string) (st : State)
  : list Effect * State :=
  match files with
  | [] => ([], st)
  | file :: rest =>
      let '(effects, outcome) := convertBlob file outputFormat in
      match outcome with
      | Throw message => (effects, mkState (convertedFiles st) message)
      | Ok convertedBlob =>
          let converted :=
            mkConverted (stem (name file) ++ "." ++ outputFormat)%string
                        (createObjectURL browser convertedBlob) in
          let '(effects', st') :=
            convertFiles rest outputFormat
              (mkState (convertedFiles st ++ [converted]) (error st)) in
          (effects ++ effects', st')
      end
  end.

Definition handleConvert (files : list File) (outputFormat : string) (st : State)
  : list Effect * State :=
  if (length files =? 0)%nat || negb (truthyStr outputFormat) then ([], st)
  else convertFiles files outputFormat (mkState (convertedFiles st) "").

End HandleConvert.

(** The formats the loop body tests for before it falls back to the server. *)
Definition localFormats : list string := ["png"; "jpg"; "jpeg"].

(** *** The rest of the component: icons, removal, the drop zone *)

Inductive Icon : Type := ImageIcon | FileTextIcon.

(** [switch (category) { case "image": ...; default: ... }] *)
Definition getFileIcon (filename : string) : Icon :=
  let ext := getFileExtension filename in
  match getProperty formatCategories ext with
  | Own category => if String.eqb category "image" then ImageIcon else FileTextIcon
  | Inherited _ => FileTextIcon
  | Undefined => FileTextIcon
  end.

End WithUnicode.

(** The three pieces of state [removeFile] writes. *)
Record Component := mkComponent {
  files : list File;
  outputFormat : string;
  converted : list ConvertedFile
}.

(** [arr.filter((_, i) => keep(i))], the index counted from [i]. *)
Fixpoint filterIndexFrom {A} (keep : nat → bool) (i : nat) (l : list A) : list A :=
  match l with
  | [] => []
  | x :: l' =>
      if keep i then x :: filterIndexFrom keep (S i) l'
      else filterIndexFrom keep (S i) l'
  end.

Definition removeFile (index : nat) (c : Component) : Component :=
  mkComponent (filterIndexFrom (λ i, negb (i =? index)%nat) 0 (files c)) "" [].

(** The [accept] option handed to the drop zone: MIME type to extensions. *)
Definition accept : list (string * list string) :=
  [ ("application/pdf", [".pdf"]);
    ("application/vnd.openxmlformats-officedocument.wordprocessingml.document", [".docx"]);
    ("application/msword", [".doc"]);
    ("text/plain", [".txt"]);
    ("application/rtf", [".rtf"]);
    ("application/vnd.openxmlformats-officedocument.presentationml.presentation", [".pptx"]);
    ("application/vnd.ms-powerpoint", [".ppt"]);
    ("image/*", [".jpg"; ".jpeg"; ".png"; ".gif"; ".bmp"; ".webp"; ".svg"]);
    ("text/csv", [".csv"]);
    ("application/vnd.openxmlformats-officedocument.spreadsheetml.sheet", [".xlsx"]);
    ("application/vnd.ms-excel", [".xls"]) ].

Definition acceptedExtensions : list string := accept ≫= snd.

End Client.

(** ** The request handler: [route.ts] *)

Module Server.

Local Open Scope float_scope.

Definition Buffer := string.

(** *** Numbers *)

(** Truthiness of a number, and [a || b] where [a] may be [undefined]. *)
Definition truthyNum (x : float) : bool :=
  negb (PrimFloat.is_zero x || PrimFloat.is_nan x).

Definition orNum (a : option float) (b : float) : float :=
  match a with
  | Some x => if truthyNum x then x else b
  | None => b
  end.

(** [Math.min(a, b)]: [NaN] if either is, and [-0] below [+0]. *)
Definition Math_min (a b : float) : float :=
  if PrimFloat.is_nan a || PrimFloat.is_nan b then nan
  else if a <? b then a
  else if b <? a then b
  else if PrimFloat.get_sign a then a else b.

(** *** Documents built through pdf-lib *)

Inductive PDFImage : Type :=
| JpgImage (bytes : Buffer)
| PngImage (bytes : Buffer).

Inductive DrawOp : Type :=
| DrawText (text : string) (x y size : float)
| DrawImage (image : PDFImage) (x y width height : float).

Record Page := mkPage { pageSize : float * float; contents : list DrawOp }.

Abbreviation PDFDocument := (list Page) (only parsing).

(** [pdfDoc.addPage(size)]: the page is appended and a handle to it returned. *)
Definition addPage (size : float * float) (pdfDoc : PDFDocument)
  : PDFDocument * nat :=
  (pdfDoc ++ [mkPage size []], length pdfDoc).

(** A drawing call on the page handle [page]. *)
Definition draw (page : nat) (op : DrawOp) (pdfDoc : PDFDocument) : PDFDocument :=
  alter (λ p, mkPage (pageSize p) (contents p ++ [op])) page pdfDoc.

(** *** The libraries *)

Inductive SharpInput : Type :=
| FromBuffer (input : Buffer)
| Create (width height channels : nat) (background : nat * nat * nat).

Inductive SharpOutput : Type :=
| Jpeg (quality : nat)
| Png
| Webp (quality : nat).

Record Metadata := mkMetadata {
  width : option float;
  height : option float;
  format : option string
}.

(** [drawTextError text] is the message [page.drawText(text, ...)] throws
    when the font cannot encode [text], and [headersError headers] the
    message [new NextResponse(body, { headers })] throws when a header value
    is refused; [None] when nothing is thrown. *)
Record Libraries := mkLibraries {
  sharp_toBuffer : SharpInput → SharpOutput → result Buffer;
  sharp_metadata : Buffer → result Metadata;
  mammoth_extractRawText : Buffer → result string;
  embedJpg : Buffer → result PDFImage;
  embedPng : Buffer → result PDFImage;
  save : PDFDocument → result Buffer;
  drawTextError : string → option string;
  headersError : list (string * string) → option string
}.

(** *** Converters run, and what they yield *)

Inductive Converter : Type :=
| PdfToImage | ImageToPdf | ImageToImage | DocxToPdf | DocxToTxt | TxtToPdf.

(** A computation: the converters entered so far, and a value or a thrown error. *)
Definition M (A : Type) : Type := list Converter * result A.

Definition ret {A} (a : A) : M A := ([], Ok a).
Definition throw {A} (message : string) : M A := ([], Throw message).
Definition lift {A} (r : result A) : M A := ([], r).

Definition bind {A B} (m : M A) (k : A → M B) : M B :=
  match m with
  | (trace, Ok a) => let '(trace', r) := k a in (trace ++ trace', r)
  | (trace, Throw message) => (trace, Throw message)
  end.

(** Entering the body of a converter. *)
Definition enter {A} (c : Converter) (body : M A) : M A :=
  (c :: fst body, snd body).

(** [try { body } catch (error) { throw new Error(message) }] *)
Definition rethrow {A} (message : string) (body : M A) : M A :=
  match body with
  | (trace, Ok a) => (trace, Ok a)
  | (trace, Throw _) => (trace, Throw message)
  end.

Notation "'let!' x ':=' m 'in' k" := (bind m (λ x, k))
  (at level 10, x name, m at level 100, k at level 200, only parsing).

(** *** Page geometry *)

Definition fontSize : float := 12.
#[warnings="-inexact-float"]
Definition lineHeight : float := fontSize * 1.2.
Definition margin : float := 50.
Definition pageWidth : float := 595.
Definition pageHeight : float := 842.

Definition maxWidth : float := 595.
Definition maxHeight : float := 842.

(** Lines 129-137 of [convertImageToPdf]: the size the image is drawn at. *)
Definition fitToPage (metadata : Metadata) : float * float :=
  let width := orNum (width metadata) maxWidth in
  let height := orNum (height metadata) maxHeight in
  if (maxWidth <? width) || (maxHeight <? height) then
    let scale := Math_min (maxWidth / width) (maxHeight / height) in
    (width * scale, height * scale)
  else (width, height).

(** The cursor of [convertTxtToPdf]. *)
Record Layout := mkLayout {
  pdfDoc : PDFDocument;
  currentPage : nat;
  yPosition : float
}.

Definition needsNewPage (st : Layout) : bool :=
  yPosition st <? margin + lineHeight.

(** [page.drawText(text, { x, y, size })] on the page handle [page]. *)
Definition drawText (lib : Libraries) (page : nat) (text : string) (x y size : float)
    (pdfDoc : PDFDocument) : result PDFDocument :=
  match drawTextError lib text with
  | None => Ok (draw page (DrawText text x y size) pdfDoc)
  | Some message => Throw message
  end.

(** The cursor a turn of the loop draws at: on a new page when there is no
    room left. *)
Definition beforeLine (st : Layout) : Layout :=
  if needsNewPage st then
    let '(doc, page) := addPage (pageWidth, pageHeight) (pdfDoc st) in
    mkLayout doc page (pageHeight - margin)
  else st.

(** The body of the [for] loop. *)
Definition layoutLine (lib : Libraries) (st : Layout) (line : string)
  : result Layout :=
  let st1 := beforeLine st in
  match drawText lib (currentPage st1) (orStr (Some line) " ") margin
                 (yPosition st1) fontSize (pdfDoc st1) with
  | Ok doc => Ok (mkLayout doc (currentPage st1) (yPosition st1 - lineHeight))
  | Throw message => Throw message
  end.

(** The [for] loop: the first throw ends it. *)
Fixpoint layoutLines (lib : Libraries) (lines : list string) (st : Layout)
  : result Layout :=
  match lines with
  | [] => Ok st
  | line :: rest =>
      match layoutLine lib st line with
      | Ok st' => layoutLines lib rest st'
      | Throw message => Throw message
      end
  end.

Definition newline : ascii := "010"%char.

(** The first page and the cursor the loop starts from. *)
Definition firstLayout : Layout :=
  let '(doc, page) := addPage (pageWidth, pageHeight) [] in
  mkLayout doc page (pageHeight - margin).

(** [convertTxtToPdf] up to [pdfDoc.save()]. *)
Definition layoutText (lib : Libraries) (text : string) : result PDFDocument :=
  let lines := split newline text in
  match layoutLines lib lines firstLayout with
  | Ok st => Ok (pdfDoc st)
  | Throw message => Throw message
  end.

(** What a turn of the loop leaves when its [drawText] goes through. *)
Definition afterLine (st : Layout) (line : string) : Layout :=
  let st1 := beforeLine st in
  mkLayout
    (draw (currentPage st1)
          (DrawText (orStr (Some line) " ") margin (yPosition st1) fontSize)
          (pdfDoc st1))
    (currentPage st1)
    (yPosition st1 - lineHeight).

(** Every line of the text can be drawn. *)
Definition drawable (lib : Libraries) (lines : list string) : Prop :=
  Forall (λ line, drawTextError lib (orStr (Some line) " ") = None) lines.

(** Where the cursor stands once [k] lines are on the current page. *)
Fixpoint cursorAfter (k : nat) : float :=
  match k with
  | O => pageHeight - margin
  | S k' => cursorAfter k' - lineHeight
  end.

Definition linesPerPage : nat := 51.

(** The shape the loop keeps after [n] lines: full pages, then the current
    page with [k] lines on it and the cursor where [k] lines leave it. *)
Definition wellPaged (n : nat) (st : Layout) : Prop :=
  ∃ (full : list Page) (current : Page) (k : nat),
    pdfDoc st = full ++ [current]
    ∧ currentPage st = length full
    ∧ Forall (λ p, length (contents p) = linesPerPage) full
    ∧ length (contents current) = k
    ∧ (k ≤ linesPerPage)%nat
    ∧ yPosition st = cursorAfter k
    ∧ (linesPerPage * length full + k = n)%nat
    ∧ ((0 < n)%nat → (0 < k)%nat).

(** The drawing call the loop makes for line number [i], counted from 0. *)
Definition lineOp (i : nat) (line : string) : DrawOp :=
  DrawText (orStr (Some line) " ") margin (cursorAfter (i mod linesPerPage)) fontSize.

Section Converters.

Variable lib : Libraries.

Definition convertPdfToImage (pdfBuffer : Buffer) (outputFormat : string)
  : M Buffer :=
  enter PdfToImage (rethrow "PDF to image conversion failed" (
    let! imageBuffer := lift (sharp_toBuffer lib (Create 595 842 3 (255, 255, 255)%nat) Png) in
    let sharpInstance := FromBuffer imageBuffer in
    if String.eqb outputFormat "jpg" || String.eqb outputFormat "jpeg" then
      lift (sharp_toBuffer lib sharpInstance (Jpeg 90))
    else if String.eqb outputFormat "png" then
      lift (sharp_toBuffer lib sharpInstance Png)
    else
      lift (sharp_toBuffer lib sharpInstance Png))).

(** [convertImageToPdf] up to [pdfDoc.save()]. *)
Definition embedImagePage (imageBuffer : Buffer) : M PDFDocument :=
  let! metadata := lift (sharp_metadata lib imageBuffer) in
  let '(width, height) := fitToPage metadata in
  let '(doc, page) := addPage (width, height) [] in
  let! pdfImage := (
    if bool_decide (format metadata = Some "jpeg")
       || bool_decide (format metadata = Some "jpg") then
      lift (embedJpg lib imageBuffer)
    else if bool_decide (format metadata = Some "png") then
      lift (embedPng lib imageBuffer)
    else
      let! pngBuffer := lift (sharp_toBuffer lib (FromBuffer imageBuffer) Png) in
      lift (embedPng lib pngBuffer)) in
  ret (draw page (DrawImage pdfImage 0 0 width height) doc).

Definition convertImageToPdf (imageBuffer : Buffer) : M Buffer :=
  enter ImageToPdf (
    let! doc := embedImagePage imageBuffer in
    lift (save lib doc)).

Definition convertImageToImage (imageBuffer : Buffer) (outputFormat : string)
  : M Buffer :=
  enter ImageToImage (
    let sharpInstance := FromBuffer imageBuffer in
    if String.eqb outputFormat "jpg" || String.eqb outputFormat "jpeg" then
      lift (sharp_toBuffer lib sharpInstance (Jpeg 90))
    else if String.eqb outputFormat "png" then
      lift (sharp_toBuffer lib sharpInstance Png)
    else if String.eqb outputFormat "webp" then
      lift (sharp_toBuffer lib sharpInstance (Webp 90))
    else
      throw ("Unsupported output format: " ++ outputFormat)%string).

Definition convertTxtToPdf (txtBuffer : Buffer) : M Buffer :=
  enter TxtToPdf (rethrow "Text to PDF conversion failed" (
    let text := txtBuffer in
    let! doc := lift (layoutText lib text) in
    lift (save lib doc))).

Definition convertDocxToPdf (docxBuffer : Buffer) : M Buffer :=
  enter DocxToPdf (
    let! text := lift (mammoth_extractRawText lib docxBuffer) in
    convertTxtToPdf text).

Definition convertDocxToTxt (docxBuffer : Buffer) : M Buffer :=
  enter DocxToTxt (
    let! text := lift (mammoth_extractRawText lib docxBuffer) in
    ret text).

(** *** [POST] *)

Inductive Body : Type :=
| JsonError (error : string)
| Bytes (buffer : Buffer).

Record NextResponse := mkNextResponse {
  status : nat;
  body : Body;
  headers : list (string * string)
}.

(** The two form fields; [formData.get] yields [null] for a missing one. *)
Record Request := mkRequest {
  formFile : option File;
  formOutputFormat : option string
}.

(** [NextResponse.json({ error }, { status })] *)
Definition json (error : string) (status : nat) : NextResponse :=
  mkNextResponse status (JsonError error) [("Content-Type", "application/json")].

Definition quote : string := String "034"%char "".

(** The headers of lines 73-76. *)
Definition downloadHeaders (mimeType filename : string) : list (string * string) :=
  [("Content-Type", mimeType);
   ("Content-Disposition",
    ("attachment; filename=" ++ quote ++ filename ++ quote)%string)].

(** The response object of lines 72-77, once it is constructed. *)
Definition downloadResponse (convertedBuffer : Buffer) (mimeType filename : string)
  : NextResponse :=
  mkNextResponse 200 (Bytes convertedBuffer) (downloadHeaders mimeType filename).

(** [new NextResponse(convertedBuffer, { headers })]: the constructor checks
    the header values and throws when one is refused, inside the [try]. *)
Definition newNextResponse (convertedBuffer : Buffer) (mimeType filename : string)
  : M NextResponse :=
  match headersError lib (downloadHeaders mimeType filename) with
  | None => ret (downloadResponse convertedBuffer mimeType filename)
  | Some message => throw message
  end.

Definition imageMime (outputFormat : string) : string :=
  ("image/" ++ (if String.eqb outputFormat "jpg" then "jpeg" else outputFormat))%string.

(** [file.name.split(".")[0]] inside a template literal. *)
Definition stem (filename : string) : string :=
  match split "."%char filename with
  | first :: _ => first
  | [] => "undefined"
  end.

Context `{Unicode}.

(** [inputFormat?.toUpperCase()] inside a template literal. *)
Definition upperOrUndefined (inputFormat : option string) : string :=
  match inputFormat with
  | Some s => toUpperCase s
  | None => "undefined"
  end.

Definition unsupportedMessage (inputFormat : option string) (outputFormat : string)
  : string :=
  ("Conversion from " ++ upperOrUndefined inputFormat ++ " to "
     ++ toUpperCase outputFormat
     ++ " is not supported yet. Currently supported: Image ↔ Image, Image ↔ PDF, DOCX → PDF/TXT, TXT → PDF")%string.

(** Line 19: the input format read off the file name. *)
Definition inputFormatOf (filename : string) : option string :=
  toLowerCase <$> pop (split "."%char filename).

(** The [if]/[else if] chain of lines 28-67; each served branch ends in the
    response of lines 72-77. *)
Definition dispatch (file : File) (outputFormat : string) : M NextResponse :=
  let buffer := content file in
  let inputFormat := inputFormatOf (name file) in
  if bool_decide (inputFormat = Some "pdf")
     && includes ["jpg"; "jpeg"; "png"] outputFormat then
    let! convertedBuffer := convertPdfToImage buffer outputFormat in
    newNextResponse convertedBuffer (imageMime outputFormat)
           (stem (name file) ++ "." ++ outputFormat)%string
  else if includesOpt ["jpg"; "jpeg"; "png"; "gif"; "webp"] inputFormat
          && String.eqb outputFormat "pdf" then
    let! convertedBuffer := convertImageToPdf buffer in
    newNextResponse convertedBuffer "application/pdf"
           (stem (name file) ++ ".pdf")%string
  else if includesOpt ["jpg"; "jpeg"; "png"; "gif"; "webp"; "bmp"] inputFormat
          && includes ["jpg"; "jpeg"; "png"; "webp"] outputFormat then
    let! convertedBuffer := convertImageToImage buffer outputFormat in
    newNextResponse convertedBuffer (imageMime outputFormat)
           (stem (name file) ++ "." ++ outputFormat)%string
  else if bool_decide (inputFormat = Some "docx") && String.eqb outputFormat "pdf" then
    let! convertedBuffer := convertDocxToPdf buffer in
    newNextResponse convertedBuffer "application/pdf"
           (stem (name file) ++ ".pdf")%string
  else if bool_decide (inputFormat = Some "docx") && String.eqb outputFormat "txt" then
    let! convertedBuffer := convertDocxToTxt buffer in
    newNextResponse convertedBuffer "text/plain"
           (stem (name file) ++ ".txt")%string
  else if bool_decide (inputFormat = Some "txt") && String.eqb outputFormat "pdf" then
    let! convertedBuffer := convertTxtToPdf buffer in
    newNextResponse convertedBuffer "application/pdf"
           (stem (name file) ++ ".pdf")%string
  else
    ret (json (unsupportedMessage inputFormat outputFormat) 400).

(** The handler: the body of [try], then the [catch] block. *)
Definition POST (request : Request) : list Converter * NextResponse :=
  let attempt : M NextResponse :=
    let! file :=
      match formFile request with
      | Some file => ret file
      | None => throw "Cannot read properties of null (reading 'name')"
      end in
    match formOutputFormat request with
    | None => ret (json "Missing file or output format" 400)
    | Some outputFormat =>
        if negb (truthyStr outputFormat) then
          ret (json "Missing file or output format" 400)
        else dispatch file outputFormat
    end in
  match attempt with
  | (trace, Ok response) => (trace, response)
  | (trace, Throw message) =>
      (trace, json ("Conversion failed: " ++ message)%string 500)
  end.

End Converters.

End Server.

(** ** The specification's side: the dispatch table and the placeholder *)

Module Spec.

Import Server.

(** What the table of section 4.5 calls [image*]: the raster formats the
    server path names. *)
Definition serverImageFormats : list string :=
  ["jpg"; "jpeg"; "png"; "gif"; "webp"; "bmp"].

(** The six rows of the table of section 4.5. *)
Definition inDispatchTable (inputFormat : option string) (outputFormat : string)
  : bool :=
  (includesOpt serverImageFormats inputFormat
     && includes ["jpg"; "jpeg"; "png"; "webp"] outputFormat)
  || (includesOpt serverImageFormats inputFormat && String.eqb outputFormat "pdf")
  || (bool_decide (inputFormat = Some "pdf")
        && includes ["jpg"; "jpeg"; "png"] outputFormat)
  || (bool_decide (inputFormat = Some "docx") && String.eqb outputFormat "pdf")
  || (bool_decide (inputFormat = Some "docx") && String.eqb outputFormat "txt")
  || (bool_decide (inputFormat = Some "txt") && String.eqb outputFormat "pdf").

(** The encoder [convertPdfToImage] picks for the requested format. *)
Definition encoderFor (outputFormat : string) : SharpOutput :=
  if String.eqb outputFormat "jpg" || String.eqb outputFormat "jpeg" then Jpeg 90
  else Png.

(** The placeholder: a white 595 x 842 canvas with three channels. *)
Definition blankPage : SharpInput := Create 595 842 3 (255, 255, 255).

(** The Content-Type the handler pairs with an output format it serves. *)
Definition mimeOf (outputFormat : string) : string :=
  if String.eqb outputFormat "pdf" then "application/pdf"
  else if String.eqb outputFormat "txt" then "text/plain"
  else if String.eqb outputFormat "jpg" then "image/jpeg"
  else ("image/" ++ outputFormat)%string.

(** How often a character occurs in a string. *)
Fixpoint countChar (c : ascii) (s : string) : nat :=
  match s with
  | EmptyString => 0
  | String d s' => (if Ascii.eqb d c then 1 else 0) + countChar c s'
  end.


(** What every served branch of the handler does with its converter: run
    it, and wrap the bytes as a download named after the upload. *)
Definition serve (lib : Libraries) (run : M Buffer) (file : File)
    (outputFormat : string) : M NextResponse :=
  bind run (λ convertedBuffer,
    newNextResponse lib convertedBuffer (mimeOf outputFormat)
      (stem (name file) ++ "." ++ outputFormat)%string).

End Spec.

(** ** Sample environments the properties are tried on *)

Module Samples.

Import Client Server.

(** An engine whose tables leave strings outside ASCII as they are. *)
Definition sampleUnicode : Unicode :=
  {| unicodeLower := λ s, s; unicodeUpper := λ s, s |}.

(** A browser whose every operation succeeds with fixed data. *)
Definition sampleBrowser : Browser :=
  mkBrowser (λ _, Ok "pdf-blob") (λ _ _, Ok "image-blob")
            (λ _ _ _, Ok (mkResponse true "OK" "server-blob")) (λ b, b).

(** Libraries that always succeed, reporting a 100 x 100 png. *)
Definition sampleLibraries : Libraries :=
  mkLibraries (λ _ _, Ok "encoded")
              (λ _, Ok (mkMetadata (Some 100%float) (Some 100%float) (Some "png")))
              (λ _, Ok "text")
              (λ bytes, Ok (JpgImage bytes))
              (λ bytes, Ok (PngImage bytes))
              (λ _, Ok "%PDF")
              (λ text, if isAscii text then None
                       else Some "WinAnsi cannot encode the text")
              (λ headers, if forallb (λ header, isAscii header.2) headers then None
                          else Some "Cannot convert argument to a ByteString").

(** Libraries whose [save] throws. *)
Definition failingLibraries : Libraries :=
  mkLibraries (sharp_toBuffer sampleLibraries) (sharp_metadata sampleLibraries)
              (mammoth_extractRawText sampleLibraries)
              (embedJpg sampleLibraries) (embedPng sampleLibraries)
              (λ _, Throw "out of memory")
              (drawTextError sampleLibraries) (headersError sampleLibraries).

(** A browser whose server answers every request with a failure status. *)
Definition refusedBrowser : Browser :=
  mkBrowser (λ _, Ok "pdf-blob") (λ _ _, Ok "image-blob")
            (λ _ _ _, Ok (mkResponse false "Bad Request" "")) (λ b, b).

End Samples.

(** * Properties *)

Import Client Samples.

(** Two float literals are told apart by comparing both with the first. *)
Ltac float_discriminate H :=
  match type of H with
  | ?a = _ => apply (f_equal (λ x, PrimFloat.eqb x a)) in H;
              vm_compute in H; discriminate H
  end.

(** Membership in a list that is written out. *)
Ltac in_list :=
  apply list_elem_of_In; cbn; solve [repeat first [left; reflexivity | right]].

(** Refuting membership in a list that is written out. *)
Ltac not_in_list H :=
  apply list_elem_of_In in H; cbn in H;
  repeat (destruct H as [H|H]; [discriminate H|]); destruct H.

(** ** Strings *)

Section StringFacts.

Context {unicode : Unicode}.

Lemma split_nonempty (sep : ascii) (s : string) : split sep s ≠ [].
Proof.
  destruct s as [|c s]; simpl; [discriminate|].
  destruct (Ascii.eqb c sep); [discriminate|].
  destruct (split sep s); discriminate.
Qed.

Lemma split_dotless (c : ascii) (s : string) :
  hasChar c s = false → split c s = [s].
Proof.
  induction s as [|d s IH]; simpl; [reflexivity|].
  intros H0. apply orb_false_iff in H0 as [Hd Hs].
  rewrite Hd, (IH Hs). reflexivity.
Qed.

Lemma includes_true (l : list string) (x : string) :
  includes l x = true ↔ x ∈ l.
Proof.
  unfold includes. induction l as [|y l IH]; simpl.
  - split; [discriminate|]. intros H. inversion H.
  - rewrite orb_true_iff, IH, elem_of_cons.
    destruct (String.eqb_spec x y); intuition congruence.
Qed.

Lemma includes_false (l : list string) (x : string) :
  includes l x = false ↔ x ∉ l.
Proof.
  rewrite <- includes_true. symmetry. apply not_true_iff_false.
Qed.

Lemma orStr_empty (s : string) : orStr (Some s) "" = s.
Proof. unfold orStr, truthyStr. destruct s; reflexivity. Qed.


(** *** Pure ASCII strings: lower-casing goes letter by letter *)






End StringFacts.

(** ** The classifier *)

Section ClassifierFacts.

Context {unicode : Unicode}.

(** Every key of [formatCategories] is one of its eighteen entries. *)
Lemma formatCategories_Some (k v : string) :
  formatCategories !! k = Some v → (k, v) ∈ formatCategories_entries.
Proof. apply elem_of_list_to_map_2. Qed.

Lemma getProperty_Own {A} (object : gmap string A) (key : string) (value : A) :
  getProperty object key = Own value ↔ object !! key = Some value.
Proof.
  unfold getProperty. destruct (object !! key) as [v|].
  - split; now intros [= ->].
  - split; [|discriminate]. now destruct (includes objectPrototypeKeys key).
Qed.

Lemma getProperty_not_own {A} (object : gmap string A) (key : string) :
  (∀ value, getProperty object key ≠ Own value) → object !! key = None.
Proof.
  intros H0. destruct (object !! key) as [v|] eqn:Hv; [|reflexivity].
  exfalso. apply (H0 v). now apply getProperty_Own.
Qed.


(** C6: for input format pdf the classifier offers every image format
    followed by every document format except pdf.  For a format that is
    no key of the format-to-family table it offers nothing, unless the
    format is the name of a property every object inherits: then the
    look-up is not empty, the guard lets it pass and a TypeError is thrown,
    as for a file named a.constructor. *)
Theorem C6_available_outputs_pdf_and_unknown :
  (∀ (file : File) (rest : list File),
      getFileExtension (name file) = "pdf" →
      getAvailableOutputFormats (file :: rest)
      = Ok (supportedFormats_image
              ++ filter (λ format, format ≠ "pdf") supportedFormats_document)
      ∧ getAvailableOutputFormats (file :: rest)
        = Ok ["jpg"; "jpeg"; "png"; "gif"; "bmp"; "webp"; "svg";
              "docx"; "doc"; "txt"; "rtf"])
  ∧ (∀ (file : File) (rest : list File),
        formatCategories !! getFileExtension (name file) = None →
        getFileExtension (name file) ∉ objectPrototypeKeys →
        getAvailableOutputFormats (file :: rest) = Ok [])
  ∧ (∀ (file : File) (rest : list File),
        formatCategories !! getFileExtension (name file) = None →
        getFileExtension (name file) ∈ objectPrototypeKeys →
        getAvailableOutputFormats (file :: rest)
        = Throw "TypeError: Cannot read properties of undefined (reading 'filter')")
  ∧ (formatCategories !! getFileExtension "a.constructor" = None
     ∧ getAvailableOutputFormats [mkFile "a.constructor" ""]
       = Throw "TypeError: Cannot read properties of undefined (reading 'filter')").
Proof.
  split; [|split; [|split]].
  - intros file rest H0. unfold getAvailableOutputFormats. rewrite H0.
    split; reflexivity.
  - intros file rest H0 Hproto. unfold getAvailableOutputFormats, getProperty.
    rewrite H0. apply includes_false in Hproto. now rewrite Hproto.
  - intros file rest H0 Hproto. unfold getAvailableOutputFormats, getProperty.
    rewrite H0. apply includes_true in Hproto. rewrite Hproto.
    destruct (String.eqb_spec (getFileExtension (name file)) "pdf") as [Hpdf|_];
      [|reflexivity].
    rewrite Hpdf in H0. discriminate H0.
  - split; reflexivity.
Qed.

(** C10: for docx, doc, txt and rtf the offered list holds "pdf" twice: once
    among the document formats that survive the filter and once appended
    after them; so the list has a repeated entry. *)
Theorem C10_non_pdf_documents_list_pdf_twice :
  ∀ (file : File) (rest : list File),
    getFileExtension (name file) ∈ ["docx"; "doc"; "txt"; "rtf"] →
    ∃ kept : list string,
      kept = filter (λ format, format ≠ getFileExtension (name file))
                    supportedFormats_document
      ∧ getAvailableOutputFormats (file :: rest) = Ok (kept ++ ["pdf"])
      ∧ "pdf" ∈ kept
      ∧ length (filter (λ format, format = "pdf") (kept ++ ["pdf"])) = 2
      ∧ ¬ NoDup (kept ++ ["pdf"]).
Proof.
  intros file rest H0.
  eexists; split; [reflexivity|].
  unfold getAvailableOutputFormats.
  repeat (apply elem_of_cons in H0 as [H0|H0];
          [rewrite H0; split; [reflexivity|]; split; [vm_compute; left|];
           split; [reflexivity|];
           intros Hnd; apply NoDup_cons_1_1 in Hnd; apply Hnd; vm_compute;
           repeat constructor|]).
  inversion H0.
Qed.

End ClassifierFacts.

Section ClassifierFactsWitnesses.

#[local] Existing Instance sampleUnicode.

Lemma C6_witness :
  getAvailableOutputFormats [mkFile "Report.PDF" ""]
  = Ok ["jpg"; "jpeg"; "png"; "gif"; "bmp"; "webp"; "svg";
        "docx"; "doc"; "txt"; "rtf"]
  ∧ getAvailableOutputFormats [mkFile "notes.md" ""] = Ok []
  ∧ getAvailableOutputFormats [mkFile "x.__proto__" ""]
    = Throw "TypeError: Cannot read properties of undefined (reading 'filter')".
Proof.
  destruct C6_available_outputs_pdf_and_unknown as (Hpdf & Hnone & Hproto & _).
  split; [|split].
  - apply (Hpdf (mkFile "Report.PDF" "") []). reflexivity.
  - apply (Hnone (mkFile "notes.md" "") []); [reflexivity|].
    intros Hin. not_in_list Hin.
  - apply (Hproto (mkFile "x.__proto__" "") []); [reflexivity|]. in_list.
Defined.

Lemma C10_witness :
  ∃ kept : list string,
    kept = ["pdf"; "doc"; "txt"; "rtf"]
    ∧ getAvailableOutputFormats [mkFile "thesis.docx" ""] = Ok (kept ++ ["pdf"])
    ∧ length (filter (λ format, format = "pdf") (kept ++ ["pdf"])) = 2.
Proof.
  destruct (C10_non_pdf_documents_list_pdf_twice (mkFile "thesis.docx" "") [])
    as (kept & Hkept & Hout & _ & Hcount & _).
  - vm_compute. left.
  - exists kept. split; [exact Hkept|]. split; [exact Hout|exact Hcount].
Defined.

End ClassifierFactsWitnesses.

(** ** Format identifiers read off file names *)

Section ExtensionFacts.

Context {unicode : Unicode}.


End ExtensionFacts.

Section ExtensionFactsWitnesses.

#[local] Existing Instance sampleUnicode.



End ExtensionFactsWitnesses.

(** ** The client's choice between the browser and the server *)

Section HandleConvertFacts.

Context {unicode : Unicode}.

Lemma local_test (inputFormat : string) :
  (String.eqb inputFormat "png" || String.eqb inputFormat "jpg"
   || String.eqb inputFormat "jpeg") = bool_decide (inputFormat ∈ localFormats).
Proof.
  unfold localFormats.
  destruct (String.eqb_spec inputFormat "png") as [->|H1]; [reflexivity|].
  destruct (String.eqb_spec inputFormat "jpg") as [->|H2]; [reflexivity|].
  destruct (String.eqb_spec inputFormat "jpeg") as [->|H3]; [reflexivity|].
  simpl. symmetry. apply bool_decide_eq_false.
  rewrite !elem_of_cons, elem_of_nil. tauto.
Qed.

Lemma convertFiles_local (browser : Browser) (files : list File)
    (outputFormat : string) (st : State) :
  Forall (λ file, getFileExtension (name file) ∈ localFormats) files →
  existsb isFetch (convertFiles browser files outputFormat st).1 = false.
Proof.
  revert st. induction files as [|file files IH]; intros st Hall; [reflexivity|].
  apply Forall_cons in Hall as [Hfile Hall].
  simpl. unfold convertBlob. rewrite local_test, (bool_decide_eq_true_2 _ Hfile).
  destruct (String.eqb outputFormat "pdf").
  - destruct (convertImageToPdf browser file); [|reflexivity].
    specialize (IH (mkState (convertedFiles st ++
      [mkConverted (stem (name file) ++ "." ++ outputFormat)%string
                   (createObjectURL browser a)]) (error st)) Hall).
    destruct (convertFiles browser files outputFormat _) as [effects' st'].
    simpl in *. exact IH.
  - destruct (convertImageFormat browser file outputFormat); [|reflexivity].
    specialize (IH (mkState (convertedFiles st ++
      [mkConverted (stem (name file) ++ "." ++ outputFormat)%string
                   (createObjectURL browser a)]) (error st)) Hall).
    destruct (convertFiles browser files outputFormat _) as [effects' st'].
    simpl in *. exact IH.
Qed.

(** C8 (amended): a file whose format is png, jpg or jpeg is converted in the
    browser, by the canvas, and no request is sent; a file of any other
    format, the image formats gif, bmp, webp and svg among them, is sent to
    the server at /api/convert and to nothing else.  A batch made only of
    png, jpg and jpeg files sends no request at all. *)
Theorem C8_local_only_for_png_jpg_jpeg :
  (∀ (browser : Browser) (file : File) (outputFormat : string),
      getFileExtension (name file) ∈ localFormats →
      existsb isFetch (convertBlob browser file outputFormat).1 = false
      ∧ (convertBlob browser file outputFormat).2
        = if String.eqb outputFormat "pdf" then convertImageToPdf browser file
          else convertImageFormat browser file outputFormat)
  ∧ (∀ (browser : Browser) (file : File) (outputFormat : string),
        getFileExtension (name file) ∉ localFormats →
        (convertBlob browser file outputFormat).1
        = [Fetch "/api/convert" file outputFormat])
  ∧ (∀ (browser : Browser) (files : list File) (outputFormat : string) (st : State),
        Forall (λ file, getFileExtension (name file) ∈ localFormats) files →
        existsb isFetch (handleConvert browser files outputFormat st).1 = false).
Proof.
  split; [|split].
  - intros browser file outputFormat H. unfold convertBlob.
    rewrite local_test, (bool_decide_eq_true_2 _ H).
    destruct (String.eqb outputFormat "pdf"); split; reflexivity.
  - intros browser file outputFormat H. unfold convertBlob.
    rewrite local_test, (bool_decide_eq_false_2 _ H). reflexivity.
  - intros browser files outputFormat st H. unfold handleConvert.
    destruct (_ || _); [reflexivity|]. now apply convertFiles_local.
Qed.

End HandleConvertFacts.

Section HandleConvertFactsWitnesses.

#[local] Existing Instance sampleUnicode.

(** A gif is in the image family, and yet converting it goes to the server. *)
Lemma C8_counterexample_gif_is_fetched :
  ¬ (∀ (browser : Browser) (file : File) (outputFormat : string),
        formatCategories !! getFileExtension (name file) = Some "image" →
        existsb isFetch (convertBlob browser file outputFormat).1 = false).
Proof.
  intros H. specialize (H sampleBrowser (mkFile "anim.gif" "") "png" eq_refl).
  discriminate H.
Qed.

Lemma C8_witness :
  existsb isFetch (convertBlob sampleBrowser (mkFile "photo.png" "") "pdf").1 = false
  ∧ (convertBlob sampleBrowser (mkFile "anim.gif" "") "png").1
    = [Fetch "/api/convert" (mkFile "anim.gif" "") "png"]
  ∧ existsb isFetch
      (handleConvert sampleBrowser [mkFile "a.jpg" ""; mkFile "b.JPEG" ""] "png"
         (mkState [] "")).1 = false.
Proof.
  destruct C8_local_only_for_png_jpg_jpeg as (Hlocal & Hremote & Hbatch).
  split; [|split].
  - apply (Hlocal sampleBrowser (mkFile "photo.png" "") "pdf"). vm_compute. left.
  - apply (Hremote sampleBrowser (mkFile "anim.gif" "") "png"). vm_compute.
    intros H. repeat (apply elem_of_cons in H as [H|H]; [discriminate H|]).
    inversion H.
  - apply (Hbatch sampleBrowser [mkFile "a.jpg" ""; mkFile "b.JPEG" ""] "png").
    repeat constructor.
Defined.

End HandleConvertFactsWitnesses.

(** ** Text reflow: pagination *)

Import Server.

Section PaginationFacts.


(** Drawing on the page just added. *)
Lemma draw_on_added_page (size : float * float) (op : DrawOp) (doc : PDFDocument) :
  draw (addPage size doc).2 op (addPage size doc).1 = doc ++ [mkPage size [op]].
Proof.
  unfold draw, addPage; cbn [fst snd].
  rewrite alter_app_r_alt by lia. rewrite Nat.sub_diag. reflexivity.
Qed.

(** A turn of the loop whose [drawText] goes through leaves [afterLine];
    one whose [drawText] throws ends the loop with that message. *)
Lemma layoutLine_drawn (lib : Libraries) (st : Layout) (line : string) :
  drawTextError lib (orStr (Some line) " ") = None →
  layoutLine lib st line = Ok (afterLine st line).
Proof. intros H. unfold layoutLine, drawText, afterLine. now rewrite H. Qed.

Lemma layoutLine_thrown (lib : Libraries) (st : Layout) (line message : string) :
  drawTextError lib (orStr (Some line) " ") = Some message →
  layoutLine lib st line = Throw message.
Proof. intros H. unfold layoutLine, drawText. now rewrite H. Qed.

Lemma layoutLines_drawable (lib : Libraries) (lines : list string) (st : Layout) :
  drawable lib lines →
  layoutLines lib lines st = Ok (fold_left afterLine lines st).
Proof.
  revert st. induction lines as [|line lines IH]; intros st Hall; [reflexivity|].
  apply Forall_cons in Hall as [Hline Hlines].
  cbn [layoutLines fold_left]. rewrite (layoutLine_drawn lib st line Hline).
  now apply IH.
Qed.

Lemma layoutLines_thrown (lib : Libraries) (before after : list string)
    (line message : string) (st : Layout) :
  drawable lib before →
  drawTextError lib (orStr (Some line) " ") = Some message →
  layoutLines lib (before ++ line :: after) st = Throw message.
Proof.
  revert st. induction before as [|first before IH]; intros st Hall Hline.
  - cbn [app layoutLines]. now rewrite (layoutLine_thrown lib st line message Hline).
  - apply Forall_cons in Hall as [Hfirst Hbefore].
    cbn [app layoutLines]. rewrite (layoutLine_drawn lib st first Hfirst).
    now apply IH.
Qed.

Lemma afterLine_room (st : Layout) (line : string) :
  (yPosition st <? margin + lineHeight)%float = false →
  afterLine st line
  = mkLayout (draw (currentPage st)
                   (DrawText (orStr (Some line) " ") margin (yPosition st) fontSize)
                   (pdfDoc st))
             (currentPage st) (yPosition st - lineHeight)%float.
Proof. intros H. unfold afterLine, beforeLine, needsNewPage. now rewrite H. Qed.

Lemma afterLine_full (st : Layout) (line : string) :
  (yPosition st <? margin + lineHeight)%float = true →
  afterLine st line
  = mkLayout (pdfDoc st
                ++ [mkPage (pageWidth, pageHeight)
                      [DrawText (orStr (Some line) " ") margin
                                (pageHeight - margin)%float fontSize]])
             (length (pdfDoc st)) (pageHeight - margin - lineHeight)%float.
Proof.
  intros H. unfold afterLine, beforeLine, needsNewPage. rewrite H.
  cbn [addPage pdfDoc currentPage yPosition]. f_equal.
  apply (draw_on_added_page (pageWidth, pageHeight)).
Qed.

(** Fifty-one lines leave room for no more; fewer always do. *)
Lemma cursor_room (k : nat) :
  (k ≤ linesPerPage)%nat →
  (cursorAfter k <? margin + lineHeight)%float = (k =? linesPerPage)%nat.
Proof.
  unfold linesPerPage. intros H.
  do 52 (destruct k as [|k]; [reflexivity|]). lia.
Qed.

(** Every cursor position a line is drawn at lies between the margins. *)
Lemma cursor_in_band (k : nat) :
  (k < linesPerPage)%nat →
  (cursorAfter k <? margin + lineHeight)%float = false
  ∧ (pageHeight - margin <? cursorAfter k)%float = false.
Proof.
  unfold linesPerPage. intros H.
  do 51 (destruct k as [|k]; [split; reflexivity|]). lia.
Qed.

Lemma wellPaged_start : wellPaged 0 firstLayout.
Proof.
  exists [], (mkPage (pageWidth, pageHeight) []), 0.
  repeat split; try reflexivity; try constructor; cbn; lia.
Qed.

Lemma draw_last (full : list Page) (current : Page) (op : DrawOp) :
  draw (length full) op (full ++ [current])
  = full ++ [mkPage (pageSize current) (contents current ++ [op])].
Proof.
  unfold draw. rewrite alter_app_r_alt by lia. rewrite Nat.sub_diag. reflexivity.
Qed.

(** One turn of the loop keeps the shape and appends the line's drawing
    call to the last page. *)
Lemma afterLine_wellPaged (n : nat) (st : Layout) (line : string) :
  wellPaged n st →
  wellPaged (S n) (afterLine st line)
  ∧ pdfDoc (afterLine st line) ≫= contents
    = (pdfDoc st ≫= contents) ++ [lineOp n line]
  ∧ pageSize <$> pdfDoc (afterLine st line)
    = (pageSize <$> pdfDoc st)
        ++ (if (n mod linesPerPage =? 0)%nat && (0 <? n)%nat
            then [(pageWidth, pageHeight)] else []).
Proof.
  intros (full & current & k & Hdoc & Hpage & Hfull & Hk & Hle & Hy & Hn & Hpos).
  pose proof (cursor_room k Hle) as Hroom. rewrite <- Hy in Hroom.
  destruct (Nat.eqb_spec k linesPerPage) as [->|Hne].
  - (* the page is full *)
    assert (Hmod : n mod linesPerPage = 0).
    { subst n. unfold linesPerPage.
      replace (51 * length full + 51) with ((length full + 1) * 51) by lia.
      apply Nat.Div0.mod_mul. }
    assert (Hn0 : (0 < n)%nat) by (unfold linesPerPage in *; lia).
    rewrite (afterLine_full st line Hroom).
    cbn [pdfDoc currentPage yPosition]. rewrite Hdoc.
    split; [|split].
    + exists (full ++ [current]), (mkPage (pageWidth, pageHeight)
             [DrawText (orStr (Some line) " ") margin (pageHeight - margin)%float
                       fontSize]), 1.
      repeat split; try reflexivity; try assumption;
        try (apply Forall_app; split; [assumption|now repeat constructor]);
        try (cbn [contents pageSize]; rewrite ?length_app; cbn [length];
             unfold linesPerPage in *; lia).
    + rewrite !bind_app. cbn. rewrite !app_nil_r. unfold lineOp. rewrite Hmod.
      now rewrite <- !app_assoc.
    + rewrite Hmod. apply Nat.ltb_lt in Hn0. rewrite Hn0. cbn.
      now rewrite !fmap_app.
  - (* there is room on the page *)
    assert (Hlt : (k < linesPerPage)%nat) by lia.
    assert (Hmod : n mod linesPerPage = k).
    { subst n. rewrite Nat.mul_comm, Nat.add_comm, Nat.Div0.mod_add.
      now apply Nat.mod_small. }
    rewrite (afterLine_room st line Hroom).
    cbn [pdfDoc currentPage yPosition].
    rewrite Hdoc, Hpage, draw_last, Hy.
    split; [|split].
    + exists full, (mkPage (pageSize current)
             (contents current
                ++ [DrawText (orStr (Some line) " ") margin (cursorAfter k) fontSize])),
        (S k).
      repeat split; try reflexivity; try assumption;
        try (apply Forall_app; split; [assumption|now repeat constructor]);
        try (cbn [contents pageSize]; rewrite ?length_app; cbn [length];
             unfold linesPerPage in *; lia).
    + rewrite !bind_app. cbn. rewrite !app_nil_r. unfold lineOp. rewrite Hmod.
      now rewrite <- !app_assoc.
    + assert (Hc : (n mod linesPerPage =? 0)%nat && (0 <? n)%nat = false).
      { apply andb_false_iff.
        destruct (Nat.ltb_spec 0 n) as [Hn0|Hn0]; [left|now right].
        apply Nat.eqb_neq. specialize (Hpos Hn0). lia. }
      rewrite Hc, app_nil_r, !fmap_app. reflexivity.
Qed.

Lemma fold_afterLine_wellPaged (lines : list string) (n : nat) (st : Layout) :
  wellPaged n st →
  wellPaged (n + length lines) (fold_left afterLine lines st)
  ∧ pdfDoc (fold_left afterLine lines st) ≫= contents
    = (pdfDoc st ≫= contents) ++ imap (λ i, lineOp (n + i)) lines
  ∧ (Forall (λ p, pageSize p = (pageWidth, pageHeight)) (pdfDoc st) →
     Forall (λ p, pageSize p = (pageWidth, pageHeight))
            (pdfDoc (fold_left afterLine lines st))).
Proof.
  revert n st. induction lines as [|line lines IH]; intros n st H.
  - cbn [fold_left length imap]. rewrite Nat.add_0_r, app_nil_r. tauto.
  - destruct (afterLine_wellPaged n st line H) as (Hstep & Hops & Hsizes).
    destruct (IH (S n) _ Hstep) as (Hrest & Hops' & Hsizes').
    cbn [fold_left length]. split; [|split].
    + now rewrite Nat.add_succ_r.
    + rewrite Hops', Hops, <- app_assoc. f_equal. cbn [imap app].
      rewrite Nat.add_0_r. f_equal. apply imap_ext. intros i x _. cbn.
      now rewrite Nat.add_succ_r.
    + intros Hall. apply Hsizes'.
      assert (Hs : Forall (λ size, size = (pageWidth, pageHeight))
                          (pageSize <$> pdfDoc (afterLine st line))).
      { rewrite Hsizes. apply Forall_app. split.
        - apply Forall_fmap. exact Hall.
        - destruct (_ && _); now repeat constructor. }
      apply Forall_fmap in Hs. exact Hs.
Qed.

Lemma split_length (c : ascii) (s : string) :
  length (split c s) = S (Spec.countChar c s).
Proof.
  induction s as [|d s IH]; [reflexivity|]. cbn [split Spec.countChar].
  destruct (Ascii.eqb d c); cbn [length]; [now rewrite IH|].
  destruct (split c s); [discriminate IH|]. cbn [length] in *. lia.
Qed.

(** What the loop has built when it ends without a throw. *)
Lemma layoutText_wellPaged (lib : Libraries) (text : string) :
  drawable lib (split newline text) →
  ∃ st : Layout,
    layoutText lib text = Ok (pdfDoc st)
    ∧ wellPaged (length (split newline text)) st
    ∧ pdfDoc st ≫= contents = imap lineOp (split newline text)
    ∧ Forall (λ p, pageSize p = (pageWidth, pageHeight)) (pdfDoc st).
Proof.
  intros Hall. unfold layoutText. rewrite (layoutLines_drawable lib _ _ Hall).
  eexists. split; [reflexivity|].
  destruct (fold_afterLine_wellPaged (split newline text) 0 _ wellPaged_start)
    as (Hshape & Hops & Hsizes).
  split; [exact Hshape|]. split; [exact Hops|].
  apply Hsizes. now repeat constructor.
Qed.

(** The first line that cannot be drawn ends the conversion. *)
Lemma layoutText_thrown (lib : Libraries) (text : string) (before after : list string)
    (line message : string) :
  split newline text = before ++ line :: after →
  drawable lib before →
  drawTextError lib (orStr (Some line) " ") = Some message →
  layoutText lib text = Throw message.
Proof.
  intros Hsplit Hall Hline. unfold layoutText.
  now rewrite Hsplit, (layoutLines_thrown lib before after line message _ Hall Hline).
Qed.


End PaginationFacts.

Section PaginationFactsWitnesses.


End PaginationFactsWitnesses.

(** ** Image embedding: page and drawn size *)

Section ImageEmbedFacts.

Context {unicode : Unicode}.

(** C2 (amended): image embedding creates exactly one page; the page has the
    size the image is drawn at, that is the natural size or the scaled one,
    not the 595 x 842 box; the image is drawn at the origin (0, 0) with that
    size, and this one-page document is what gets saved. *)
Theorem C2_image_page_sized_to_drawn_image :
  (∀ (lib : Libraries) (imageBuffer : Buffer) (trace : list Converter)
     (doc : PDFDocument),
      embedImagePage lib imageBuffer = (trace, Ok doc) →
      ∃ (metadata : Metadata) (pdfImage : PDFImage),
        sharp_metadata lib imageBuffer = Ok metadata
        ∧ doc = [mkPage (fitToPage metadata)
                   [DrawImage pdfImage 0 0 (fitToPage metadata).1
                              (fitToPage metadata).2]])
  ∧ (∀ (lib : Libraries) (imageBuffer : Buffer) (trace : list Converter)
       (bytes : Buffer),
        convertImageToPdf lib imageBuffer = (trace, Ok bytes) →
        ∃ (metadata : Metadata) (pdfImage : PDFImage),
          sharp_metadata lib imageBuffer = Ok metadata
          ∧ save lib [mkPage (fitToPage metadata)
                        [DrawImage pdfImage 0 0 (fitToPage metadata).1
                                   (fitToPage metadata).2]] = Ok bytes).
Proof.
  assert (Hembed : ∀ lib imageBuffer trace doc,
             embedImagePage lib imageBuffer = (trace, Ok doc) →
             ∃ metadata pdfImage,
               sharp_metadata lib imageBuffer = Ok metadata
               ∧ doc = [mkPage (fitToPage metadata)
                          [DrawImage pdfImage 0 0 (fitToPage metadata).1
                                     (fitToPage metadata).2]]).
  { intros lib imageBuffer trace doc. unfold embedImagePage, bind, lift, ret.
    destruct (sharp_metadata lib imageBuffer) as [metadata|] eqn:Hmeta;
      [|discriminate].
    destruct (fitToPage metadata) as [w h] eqn:Hfit. cbn [addPage].
    intros H. exists metadata.
    destruct (_ || _).
    - destruct (embedJpg lib imageBuffer) as [image|]; [|discriminate].
      injection H as _ <-. exists image. rewrite Hfit. split; reflexivity.
    - destruct (bool_decide _).
      + destruct (embedPng lib imageBuffer) as [image|]; [|discriminate].
        injection H as _ <-. exists image. rewrite Hfit. split; reflexivity.
      + destruct (sharp_toBuffer lib _ _) as [png|]; [|discriminate].
        destruct (embedPng lib png) as [image|]; [|discriminate].
        injection H as _ <-. exists image. rewrite Hfit. split; reflexivity. }
  split; [exact Hembed|].
  intros lib imageBuffer trace bytes. unfold convertImageToPdf, enter, bind.
  destruct (embedImagePage lib imageBuffer) as [trace' [doc|]] eqn:Hdoc;
    [|discriminate].
  destruct (Hembed _ _ _ _ Hdoc) as (metadata & image & Hmeta & ->).
  unfold lift. cbn [fst snd]. intros H. injection H as _ H.
  exists metadata, image. split; [exact Hmeta|exact H].
Qed.

(** C3: an image wider than 595 or taller than 842 is drawn at its natural
    size multiplied by min(595 / width, 842 / height), any other image at
    its natural size; a missing width counts as 595 and a missing height as
    842; a 1000 x 2000 image is scaled by 0.421 to 421 x 842. *)
#[warnings="-inexact-float"]
Theorem C3_image_fit_to_page :
  (∀ (w h : float) (fmt : option string),
      truthyNum w = true → truthyNum h = true →
      fitToPage (mkMetadata (Some w) (Some h) fmt)
      = if (595 <? w)%float || (842 <? h)%float
        then (w * Math_min (595 / w) (842 / h), h * Math_min (595 / w) (842 / h))%float
        else (w, h))
  ∧ (∀ (h : option float) (fmt : option string),
        fitToPage (mkMetadata None h fmt) = fitToPage (mkMetadata (Some 595%float) h fmt))
  ∧ (∀ (w : option float) (fmt : option string),
        fitToPage (mkMetadata w None fmt) = fitToPage (mkMetadata w (Some 842%float) fmt))
  ∧ (∀ fmt : option string, fitToPage (mkMetadata None None fmt) = (595, 842)%float)
  ∧ Math_min (595 / 1000) (842 / 2000) = 0.421%float
  ∧ (∀ fmt : option string,
        fitToPage (mkMetadata (Some 1000%float) (Some 2000%float) fmt)
        = (421, 842)%float).
Proof.
  split; [|repeat split].
  intros w h fmt Hw Hh. unfold fitToPage, orNum. cbn [width height].
  rewrite Hw, Hh. reflexivity.
Qed.

End ImageEmbedFacts.

Section ImageEmbedFactsWitnesses.

#[local] Existing Instance sampleUnicode.

(** A 100 x 100 png gets a 100 x 100 page, not a 595 x 842 one. *)
Lemma C2_counterexample_small_image_small_page :
  ¬ (∀ (lib : Libraries) (imageBuffer : Buffer) (trace : list Converter)
       (doc : PDFDocument),
        embedImagePage lib imageBuffer = (trace, Ok doc) →
        ∃ page : Page, doc = [page] ∧ pageSize page = (pageWidth, pageHeight)).
Proof.
  intros H.
  destruct (H sampleLibraries "png-bytes" [] _ eq_refl) as (page & Hdoc & Hsize).
  apply (f_equal (λ d, pageSize <$> head d)) in Hdoc. cbn in Hdoc.
  rewrite Hsize in Hdoc.
  apply (f_equal (λ size, from_option fst 0%float size)) in Hdoc. cbn in Hdoc.
  float_discriminate Hdoc.
Qed.

Lemma C2_witness :
  ∃ (metadata : Metadata) (pdfImage : PDFImage),
    sharp_metadata sampleLibraries "png-bytes" = Ok metadata
    ∧ [mkPage (100, 100)%float [DrawImage (PngImage "png-bytes") 0 0 100 100]]
      = [mkPage (fitToPage metadata)
           [DrawImage pdfImage 0 0 (fitToPage metadata).1 (fitToPage metadata).2]].
Proof.
  exact (proj1 C2_image_page_sized_to_drawn_image sampleLibraries "png-bytes"
           [] _ eq_refl).
Defined.

Lemma C3_witness :
  fitToPage (mkMetadata (Some 1190%float) (Some 842%float) (Some "jpeg"))
  = (595, 421)%float
  ∧ fitToPage (mkMetadata (Some 300%float) (Some 200%float) (Some "png"))
    = (300, 200)%float.
Proof.
  split.
  - rewrite (proj1 C3_image_fit_to_page 1190%float 842%float (Some "jpeg") eq_refl eq_refl).
    reflexivity.
  - rewrite (proj1 C3_image_fit_to_page 300%float 200%float (Some "png") eq_refl eq_refl).
    reflexivity.
Defined.

End ImageEmbedFactsWitnesses.

(** ** The dispatcher *)

Section DispatchFacts.

Context {unicode : Unicode}.

Lemma not_server_image_not_embeddable (inputFormat : option string) :
  includesOpt Spec.serverImageFormats inputFormat = false →
  includesOpt ["jpg"; "jpeg"; "png"; "gif"; "webp"] inputFormat = false.
Proof.
  destruct inputFormat as [s|]; [|reflexivity].
  unfold Spec.serverImageFormats, includesOpt, includes. cbn [existsb].
  intros H. repeat (apply orb_false_iff in H as [? H]).
  repeat (apply orb_false_iff; split; [assumption|]). reflexivity.
Qed.

(** Building the page enters no further converter. *)
Lemma embedImagePage_trace (lib : Libraries) (imageBuffer : Buffer) :
  (embedImagePage lib imageBuffer).1 = [].
Proof.
  unfold embedImagePage, bind, lift, ret.
  destruct (sharp_metadata lib imageBuffer); [|reflexivity].
  destruct (fitToPage _). cbn [addPage].
  destruct (_ || _).
  - now destruct (embedJpg lib imageBuffer).
  - destruct (bool_decide _).
    + now destruct (embedPng lib imageBuffer).
    + destruct (sharp_toBuffer lib _ _) as [png|]; [|reflexivity].
      now destruct (embedPng lib png).
Qed.

(** No branch of the chain is taken: the handler answers with the message. *)
Lemma dispatch_unsupported (lib : Libraries) (file : File) (outputFormat : string) :
  Spec.inDispatchTable (inputFormatOf (name file)) outputFormat = false →
  dispatch lib file outputFormat
  = ret (json (unsupportedMessage (inputFormatOf (name file)) outputFormat) 400).
Proof.
  unfold Spec.inDispatchTable, dispatch.
  generalize (inputFormatOf (name file)). intros inputFormat H.
  repeat (apply orb_false_iff in H as [H ?]).
  assert (Hpdf : includesOpt ["jpg"; "jpeg"; "png"; "gif"; "webp"] inputFormat
                 && String.eqb outputFormat "pdf" = false).
  { apply andb_false_iff.
    match goal with
    | Hx : includesOpt Spec.serverImageFormats _ && String.eqb _ "pdf" = false |- _ =>
        apply andb_false_iff in Hx as [Hx|Hx];
        [left; now apply not_server_image_not_embeddable|now right]
    end. }
  unfold Spec.serverImageFormats in *.
  repeat match goal with
         | Hx : ?c = false |- context [if ?c then _ else _] => rewrite Hx
         end.
  reflexivity.
Qed.

(** What [POST] answers once the two form fields are there. *)
Lemma POST_dispatch (lib : Libraries) (file : File) (outputFormat : string) :
  outputFormat ≠ "" →
  POST lib (mkRequest (Some file) (Some outputFormat))
  = match dispatch lib file outputFormat with
    | (trace, Ok response) => (trace, response)
    | (trace, Throw message) =>
        (trace, json ("Conversion failed: " ++ message)%string 500)
    end.
Proof.
  intros H. unfold POST. cbn [formFile formOutputFormat].
  assert (Ht : truthyStr outputFormat = true).
  { unfold truthyStr. destruct (String.eqb_spec outputFormat ""); [contradiction|reflexivity]. }
  rewrite Ht. cbn [negb]. unfold bind, ret.
  destruct (dispatch lib file outputFormat) as [trace [response|message]]; reflexivity.
Qed.

(** C5: a pair outside the dispatch table is answered with status 400 and no
    converter is entered; the message holds both format names, in upper
    case; a converter that throws is answered with status 500. *)
Theorem C5_unsupported_pairs_get_400 :
  (∀ (lib : Libraries) (file : File) (outputFormat : string),
      Spec.inDispatchTable (inputFormatOf (name file)) outputFormat = false →
      (POST lib (mkRequest (Some file) (Some outputFormat))).1 = []
      ∧ status (POST lib (mkRequest (Some file) (Some outputFormat))).2 = 400
      ∧ (outputFormat ≠ "" →
         body (POST lib (mkRequest (Some file) (Some outputFormat))).2
         = JsonError
             ("Conversion from " ++ upperOrUndefined (inputFormatOf (name file))
                ++ " to " ++ toUpperCase outputFormat
                ++ " is not supported yet. Currently supported: Image ↔ Image, Image ↔ PDF, DOCX → PDF/TXT, TXT → PDF")%string))
  ∧ (∀ (lib : Libraries) (file : File) (outputFormat : string)
       (trace : list Converter) (message : string),
        outputFormat ≠ "" →
        dispatch lib file outputFormat = (trace, Throw message) →
        POST lib (mkRequest (Some file) (Some outputFormat))
        = (trace, json ("Conversion failed: " ++ message)%string 500)
        ∧ status (POST lib (mkRequest (Some file) (Some outputFormat))).2 = 500).
Proof.
  split.
  - intros lib file outputFormat H.
    destruct (String.eqb_spec outputFormat "") as [->|Hne].
    + repeat split. intros Hne. now contradiction Hne.
    + rewrite (POST_dispatch lib file outputFormat Hne),
        (dispatch_unsupported lib file outputFormat H).
      repeat split.
  - intros lib file outputFormat trace message Hne H.
    rewrite (POST_dispatch lib file outputFormat Hne), H. split; reflexivity.
Qed.

(** What each converter leaves in the trace. *)
Lemma convertImageToPdf_trace (lib : Libraries) (b : Buffer) :
  (convertImageToPdf lib b).1 = [ImageToPdf].
Proof.
  unfold convertImageToPdf, enter, bind, lift. cbn [fst].
  pose proof (embedImagePage_trace lib b) as Ht.
  destruct (embedImagePage lib b) as [trace [doc|]]; cbn [fst] in *; subst trace;
    reflexivity.
Qed.

Lemma convertPdfToImage_trace (lib : Libraries) (b : Buffer) (outputFormat : string) :
  (convertPdfToImage lib b outputFormat).1 = [PdfToImage].
Proof.
  unfold convertPdfToImage, enter, rethrow, bind, lift. cbn [fst].
  destruct (sharp_toBuffer lib (Create 595 842 3 (255, 255, 255)) Png) as [png|];
    [|reflexivity].
  destruct (_ || _); [now destruct (sharp_toBuffer lib _ _)|].
  destruct (String.eqb _ _); now destruct (sharp_toBuffer lib _ _).
Qed.

(** A served branch answers 200 with the bytes when the converter returns
    and the response is constructed, and 500 with the message of whichever
    of the two throws. *)
Lemma POST_served (lib : Libraries) (file : File) (outputFormat : string)
    (run : M Buffer) :
  outputFormat ≠ "" →
  dispatch lib file outputFormat = Spec.serve lib run file outputFormat →
  POST lib (mkRequest (Some file) (Some outputFormat))
  = (run.1,
     match run.2 with
     | Ok bytes =>
         match headersError lib
                 (downloadHeaders (Spec.mimeOf outputFormat)
                    (stem (name file) ++ "." ++ outputFormat)%string) with
         | None =>
             downloadResponse bytes (Spec.mimeOf outputFormat)
               (stem (name file) ++ "." ++ outputFormat)%string
         | Some message => json ("Conversion failed: " ++ message)%string 500
         end
     | Throw message => json ("Conversion failed: " ++ message)%string 500
     end).
Proof.
  intros Hne Hd. rewrite (POST_dispatch lib file outputFormat Hne), Hd.
  unfold Spec.serve, newNextResponse, bind, ret, throw.
  destruct run as [trace [bytes|message]]; cbn; [|reflexivity].
  destruct (headersError lib _); cbn; now rewrite app_nil_r.
Qed.

(** C4: for jpg, jpeg, png, gif and webp with output pdf the handler enters
    the image-to-PDF converter; it returns what the converter saved when the
    response headers are accepted, and answers 500 with the message when the
    converter or the response constructor throws.  For bmp with output pdf
    no converter is entered and the answer is status 400. *)
Theorem C4_bmp_to_pdf_is_rejected :
  (∀ (lib : Libraries) (file : File) (inputFormat : string),
      inputFormat ∈ ["jpg"; "jpeg"; "png"; "gif"; "webp"] →
      inputFormatOf (name file) = Some inputFormat →
      (POST lib (mkRequest (Some file) (Some "pdf"))).1 = [ImageToPdf]
      ∧ (∀ bytes : Buffer,
            (convertImageToPdf lib (content file)).2 = Ok bytes →
            headersError lib
              (downloadHeaders "application/pdf" (stem (name file) ++ ".pdf")%string)
            = None →
            (POST lib (mkRequest (Some file) (Some "pdf"))).2
            = downloadResponse bytes "application/pdf"
                (stem (name file) ++ ".pdf")%string)
      ∧ (∀ (bytes : Buffer) (message : string),
            (convertImageToPdf lib (content file)).2 = Ok bytes →
            headersError lib
              (downloadHeaders "application/pdf" (stem (name file) ++ ".pdf")%string)
            = Some message →
            (POST lib (mkRequest (Some file) (Some "pdf"))).2
            = json ("Conversion failed: " ++ message)%string 500)
      ∧ (∀ message : string,
            (convertImageToPdf lib (content file)).2 = Throw message →
            (POST lib (mkRequest (Some file) (Some "pdf"))).2
            = json ("Conversion failed: " ++ message)%string 500))
  ∧ (∀ (lib : Libraries) (file : File),
        inputFormatOf (name file) = Some "bmp" →
        POST lib (mkRequest (Some file) (Some "pdf"))
        = ([], json (unsupportedMessage (Some "bmp") "pdf") 400)).
Proof.
  split.
  - intros lib file inputFormat Hin Hfmt.
    assert (Hd : dispatch lib file "pdf"
                 = Spec.serve lib (convertImageToPdf lib (content file)) file "pdf").
    { unfold dispatch. rewrite Hfmt.
      repeat (apply elem_of_cons in Hin as [->|Hin]; [reflexivity|]).
      inversion Hin. }
    rewrite (POST_served lib file "pdf" _ ltac:(discriminate) Hd).
    cbn [fst snd]. split; [apply convertImageToPdf_trace|].
    change (Spec.mimeOf "pdf") with "application/pdf".
    change (stem (name file) ++ "." ++ "pdf")%string
      with (stem (name file) ++ ".pdf")%string.
    split; [|split].
    + intros bytes -> Hheaders. now rewrite Hheaders.
    + intros bytes message -> Hheaders. now rewrite Hheaders.
    + now intros message ->.
  - intros lib file Hfmt. rewrite POST_dispatch by discriminate.
    unfold dispatch. rewrite Hfmt. reflexivity.
Qed.

(** C9: for a pdf file and output jpg, jpeg or png, the converter and the
    whole response are the same for any two byte contents: what the
    converter returns is the blank white 595 x 842 canvas encoded in the
    requested format, and it is the body of the response when the response
    headers are accepted. *)
Theorem C9_pdf_to_image_ignores_content :
  ∀ (lib : Libraries) (filename : string) (bytes1 bytes2 : Buffer)
    (outputFormat : string),
    inputFormatOf filename = Some "pdf" →
    outputFormat ∈ ["jpg"; "jpeg"; "png"] →
    convertPdfToImage lib bytes1 outputFormat = convertPdfToImage lib bytes2 outputFormat
    ∧ POST lib (mkRequest (Some (mkFile filename bytes1)) (Some outputFormat))
      = POST lib (mkRequest (Some (mkFile filename bytes2)) (Some outputFormat))
    ∧ (POST lib (mkRequest (Some (mkFile filename bytes1)) (Some outputFormat))).1
      = [PdfToImage]
    ∧ ∀ png encoded : Buffer,
        sharp_toBuffer lib Spec.blankPage Png = Ok png →
        sharp_toBuffer lib (FromBuffer png) (Spec.encoderFor outputFormat) = Ok encoded →
        convertPdfToImage lib bytes1 outputFormat = ([PdfToImage], Ok encoded)
        ∧ (headersError lib
             (downloadHeaders (imageMime outputFormat)
                (stem filename ++ "." ++ outputFormat)%string) = None →
           POST lib (mkRequest (Some (mkFile filename bytes1)) (Some outputFormat))
           = ([PdfToImage],
              downloadResponse encoded (imageMime outputFormat)
                (stem filename ++ "." ++ outputFormat)%string))
        ∧ (∀ message : string,
              headersError lib
                (downloadHeaders (imageMime outputFormat)
                   (stem filename ++ "." ++ outputFormat)%string) = Some message →
              POST lib (mkRequest (Some (mkFile filename bytes1)) (Some outputFormat))
              = ([PdfToImage], json ("Conversion failed: " ++ message)%string 500)).
Proof.
  intros lib filename bytes1 bytes2 outputFormat Hpdf Hout.
  assert (Hne : outputFormat ≠ "").
  { intros ->. repeat (apply elem_of_cons in Hout as [Hout|Hout]; [discriminate|]).
    inversion Hout. }
  assert (Hmime : Spec.mimeOf outputFormat = imageMime outputFormat).
  { repeat (apply elem_of_cons in Hout as [->|Hout]; [reflexivity|]). inversion Hout. }
  assert (Hd : ∀ bytes,
             dispatch lib (mkFile filename bytes) outputFormat
             = Spec.serve lib (convertPdfToImage lib bytes outputFormat)
                 (mkFile filename bytes) outputFormat).
  { intros bytes. unfold dispatch, Spec.serve. cbn [name content]. rewrite Hpdf, Hmime.
    apply includes_true in Hout. rewrite Hout. reflexivity. }
  assert (Hsame : convertPdfToImage lib bytes1 outputFormat
                  = convertPdfToImage lib bytes2 outputFormat) by reflexivity.
  split; [exact Hsame|].
  rewrite !(POST_served lib _ outputFormat _ Hne (Hd _)). cbn [name].
  split; [now rewrite Hsame|].
  split; [apply convertPdfToImage_trace|].
  intros png encoded Hpng Henc.
  assert (Hrun : convertPdfToImage lib bytes1 outputFormat = ([PdfToImage], Ok encoded)).
  { unfold convertPdfToImage, enter, rethrow, bind, lift.
    unfold Spec.blankPage in Hpng. rewrite Hpng. cbn.
    unfold Spec.encoderFor in Henc.
    repeat (apply elem_of_cons in Hout as [->|Hout];
            [cbn [String.eqb Ascii.eqb Bool.eqb orb] in Henc |- *;
             now rewrite Henc|]).
    inversion Hout. }
  split; [exact Hrun|]. rewrite Hrun, Hmime. cbn [fst snd].
  split.
  - intros Hheaders. now rewrite Hheaders.
  - intros message Hheaders. now rewrite Hheaders.
Qed.

End DispatchFacts.

Section DispatchFactsWitnesses.

#[local] Existing Instance sampleUnicode.

Lemma C5_witness :
  (POST sampleLibraries (mkRequest (Some (mkFile "deck.pptx" "")) (Some "pdf"))).1 = []
  ∧ status (POST sampleLibraries
              (mkRequest (Some (mkFile "deck.pptx" "")) (Some "pdf"))).2 = 400
  ∧ body (POST sampleLibraries
            (mkRequest (Some (mkFile "deck.pptx" "")) (Some "pdf"))).2
    = JsonError "Conversion from PPTX to PDF is not supported yet. Currently supported: Image ↔ Image, Image ↔ PDF, DOCX → PDF/TXT, TXT → PDF"
  ∧ POST failingLibraries (mkRequest (Some (mkFile "notes.txt" "hello")) (Some "pdf"))
    = ([TxtToPdf], json "Conversion failed: Text to PDF conversion failed" 500).
Proof.
  destruct C5_unsupported_pairs_get_400 as [H400 H500].
  destruct (H400 sampleLibraries (mkFile "deck.pptx" "") "pdf" eq_refl)
    as (Htrace & Hstatus & Hbody).
  split; [exact Htrace|]. split; [exact Hstatus|]. split.
  - apply Hbody. discriminate.
  - apply (H500 failingLibraries (mkFile "notes.txt" "hello") "pdf" [TxtToPdf]
             "Text to PDF conversion failed"); [discriminate|reflexivity].
Defined.

Lemma C4_witness :
  POST sampleLibraries (mkRequest (Some (mkFile "anim.gif" "gif-bytes")) (Some "pdf"))
  = ([ImageToPdf], downloadResponse "%PDF" "application/pdf" "anim.pdf")
  ∧ POST sampleLibraries (mkRequest (Some (mkFile "scan.bmp" "bmp-bytes")) (Some "pdf"))
    = ([], json "Conversion from BMP to PDF is not supported yet. Currently supported: Image ↔ Image, Image ↔ PDF, DOCX → PDF/TXT, TXT → PDF" 400).
Proof.
  destruct C4_bmp_to_pdf_is_rejected as [Himage Hbmp].
  split.
  - destruct (Himage sampleLibraries (mkFile "anim.gif" "gif-bytes") "gif")
      as (Htrace & Hserved & _); [vm_compute; do 3 right; left|reflexivity|].
    specialize (Hserved "%PDF" eq_refl eq_refl).
    destruct (POST sampleLibraries _) as [trace response].
    cbn [fst snd] in Htrace, Hserved. now subst.
  - apply (Hbmp sampleLibraries (mkFile "scan.bmp" "bmp-bytes")). reflexivity.
Defined.

Lemma C9_witness :
  POST sampleLibraries (mkRequest (Some (mkFile "a.pdf" "%PDF-1.4 one")) (Some "jpg"))
  = POST sampleLibraries (mkRequest (Some (mkFile "a.pdf" "%PDF-1.7 two")) (Some "jpg"))
  ∧ convertPdfToImage sampleLibraries "%PDF-1.4 one" "jpg" = ([PdfToImage], Ok "encoded")
  ∧ POST sampleLibraries (mkRequest (Some (mkFile "a.pdf" "%PDF-1.4 one")) (Some "jpg"))
    = ([PdfToImage], downloadResponse "encoded" "image/jpeg" "a.jpg").
Proof.
  destruct (C9_pdf_to_image_ignores_content sampleLibraries "a.pdf"
              "%PDF-1.4 one" "%PDF-1.7 two" "jpg" eq_refl)
    as (_ & Hsame & _ & Hblank).
  - vm_compute. left.
  - split; [exact Hsame|].
    destruct (Hblank "encoded" "encoded" eq_refl eq_refl) as (Hrun & Hbody & _).
    split; [exact Hrun|]. apply Hbody. reflexivity.
Defined.

End DispatchFactsWitnesses.

(** ** Text reflow: the shape of the whole document *)

Section LayoutShapeFacts.

(** X1: When every line can be drawn, the document is built and the number
    of its pages is the number of lines divided by 51, rounded up; a text
    with [k] line breaks has [k + 1] lines. *)
Theorem layoutText_page_count :
  ∀ (lib : Libraries) (text : string),
    drawable lib (split newline text) →
    ∃ doc : PDFDocument,
      layoutText lib text = Ok doc
      ∧ length doc = (length (split newline text) + 50) / 51
      ∧ length (split newline text) = S (Spec.countChar newline text)
      ∧ length doc = 1 + Spec.countChar newline text / 51.
Proof.
  intros lib text Hall.
  destruct (layoutText_wellPaged lib text Hall)
    as (st & Hdone & (full & current & k & Hdoc & _ & _ & _ & Hle & _ & Hn & Hpos) & _).
  exists (pdfDoc st). split; [exact Hdone|].
  pose proof (split_length newline text) as Hlen.
  rewrite Hdoc, length_app. cbn [length]. unfold linesPerPage in *.
  assert (Hk : (0 < k)%nat) by (apply Hpos; lia).
  assert (Hpages : (length (split newline text) + 50) / 51 = length full + 1).
  { symmetry. apply (Nat.div_unique _ 51 _ (k - 1)); lia. }
  split; [lia|]. split; [exact Hlen|].
  assert (Spec.countChar newline text / 51 = length full); [|lia].
  symmetry. apply (Nat.div_unique _ 51 _ (k - 1)); lia.
Qed.

(** X2: When every line can be drawn, every page of the document is
    595 x 842; every page but the last holds exactly 51 lines, and the last
    holds at least one and at most 51: no page is left blank. *)
Theorem layoutText_pages_filled :
  ∀ (lib : Libraries) (text : string),
    drawable lib (split newline text) →
    ∃ (full : list Page) (current : Page),
      layoutText lib text = Ok (full ++ [current])
      ∧ Forall (λ p, pageSize p = (pageWidth, pageHeight)) (full ++ [current])
      ∧ Forall (λ p, length (contents p) = 51) full
      ∧ (1 ≤ length (contents current) ≤ 51)%nat.
Proof.
  intros lib text Hall.
  destruct (layoutText_wellPaged lib text Hall)
    as (st & Hdone & (full & current & k & Hdoc & _ & Hfull & Hk & Hle & _ & Hn & Hpos)
        & _ & Hsizes).
  exists full, current. rewrite <- Hdoc.
  split; [exact Hdone|]. split; [exact Hsizes|]. split; [exact Hfull|].
  pose proof (split_length newline text). unfold linesPerPage in *.
  rewrite Hk. split; [apply Hpos|]; lia.
Qed.

(** X3: When every line can be drawn, the document read page after page
    holds one drawing call per line, in the order of the lines: an empty
    line is drawn as a single space, every line starts at the left margin in
    size 12, line [i] stands where [i mod 51] earlier lines on its page have
    moved the cursor, and that is never below margin + lineHeight nor above
    pageHeight - margin.  When a line cannot be drawn and all the lines
    before it can, no document is built: the library's error ends the
    loop. *)
Theorem layoutText_draws_every_line :
  ∀ (lib : Libraries) (text : string),
    (drawable lib (split newline text) →
     ∃ doc : PDFDocument,
       layoutText lib text = Ok doc
       ∧ doc ≫= contents = imap lineOp (split newline text)
       ∧ length (doc ≫= contents) = length (split newline text)
       ∧ Forall (λ op, ∃ (drawn : string) (y : float),
                   op = DrawText drawn margin y fontSize
                   ∧ drawn ≠ ""
                   ∧ (y <? margin + lineHeight)%float = false
                   ∧ (pageHeight - margin <? y)%float = false)
                (doc ≫= contents))
    ∧ (∀ (before after : list string) (line message : string),
          split newline text = before ++ line :: after →
          drawable lib before →
          drawTextError lib (orStr (Some line) " ") = Some message →
          layoutText lib text = Throw message).
Proof.
  intros lib text. split.
  - intros Hall.
    destruct (layoutText_wellPaged lib text Hall) as (st & Hdone & _ & Hops & _).
    exists (pdfDoc st). split; [exact Hdone|].
    rewrite Hops. split; [reflexivity|]. split; [apply length_imap|].
    apply Forall_lookup. intros i op Hi.
    apply list_lookup_imap_Some in Hi as (line & _ & ->).
    exists (orStr (Some line) " "), (cursorAfter (i mod linesPerPage)).
    split; [reflexivity|]. split.
    + unfold orStr, truthyStr.
      destruct (String.eqb_spec line ""); [discriminate|assumption].
    + apply cursor_in_band. apply Nat.mod_upper_bound. discriminate.
  - intros before after line message. apply layoutText_thrown.
Qed.

End LayoutShapeFacts.

Section LayoutShapeFactsWitnesses.

Lemma layoutText_page_count_witness :
  ∃ doc : PDFDocument,
    layoutText sampleLibraries (String.concat (String newline "") (repeat "line" 103))
    = Ok doc
    ∧ length doc = 3
    ∧ length (split newline (String.concat (String newline "") (repeat "line" 103)))
      = 103
    ∧ length doc = 3.
Proof.
  refine (layoutText_page_count sampleLibraries
            (String.concat (String newline "") (repeat "line" 103)) _).
  vm_compute. repeat constructor.
Defined.

Lemma layoutText_pages_filled_witness :
  ∃ (full : list Page) (current : Page),
    layoutText sampleLibraries (String.concat (String newline "") (repeat "line" 52))
    = Ok (full ++ [current])
    ∧ Forall (λ p, pageSize p = (pageWidth, pageHeight)) (full ++ [current])
    ∧ Forall (λ p, length (contents p) = 51) full
    ∧ (1 ≤ length (contents current) ≤ 51)%nat.
Proof.
  refine (layoutText_pages_filled sampleLibraries
            (String.concat (String newline "") (repeat "line" 52)) _).
  vm_compute. repeat constructor.
Defined.

Lemma layoutText_draws_every_line_witness :
  (∃ doc : PDFDocument,
      layoutText sampleLibraries (String.concat (String newline "") ["one"; ""; "three"])
      = Ok doc
      ∧ doc ≫= contents
        = [DrawText "one" margin (cursorAfter 0) fontSize;
           DrawText " " margin (cursorAfter 1) fontSize;
           DrawText "three" margin (cursorAfter 2) fontSize])
  ∧ layoutText sampleLibraries
      (String.concat (String newline "") ["one"; String "230"%char (String "151"%char (String "165"%char "")); "three"])
    = Throw "WinAnsi cannot encode the text".
Proof.
  split.
  - destruct (proj1 (layoutText_draws_every_line sampleLibraries
                       (String.concat (String newline "") ["one"; ""; "three"])))
      as (doc & Hdone & Hops & _).
    + vm_compute. repeat constructor.
    + exists doc. split; [exact Hdone|exact Hops].
  - apply (proj2 (layoutText_draws_every_line sampleLibraries
                    (String.concat (String newline "")
                       ["one"; String "230"%char (String "151"%char (String "165"%char "")); "three"]))
             ["one"] ["three"] (String "230"%char (String "151"%char (String "165"%char ""))) "WinAnsi cannot encode the text");
      [reflexivity| |reflexivity].
    vm_compute. repeat constructor.
Defined.

End LayoutShapeFactsWitnesses.

(** ** The request handler, branch by branch *)

Section HandlerFacts.

Context {unicode : Unicode}.

Lemma includesOpt_true (l : list string) (x : option string) :
  includesOpt l x = true ↔ ∃ s, x = Some s ∧ s ∈ l.
Proof.
  destruct x as [s|]; cbn.
  - rewrite includes_true. split; [eauto|]. now intros (? & [= <-] & ?).
  - split; [discriminate|]. now intros (? & [=] & _).
Qed.

(** The seven ways through the chain of lines 28-67. *)
Lemma dispatch_branch (lib : Libraries) (file : File) (outputFormat : string) :
  let inputFormat := inputFormatOf (name file) in
  (inputFormat = Some "pdf" ∧ outputFormat ∈ ["jpg"; "jpeg"; "png"]
   ∧ dispatch lib file outputFormat
     = Spec.serve lib (convertPdfToImage lib (content file) outputFormat)
         file outputFormat)
  ∨ ((∃ s, inputFormat = Some s ∧ s ∈ ["jpg"; "jpeg"; "png"; "gif"; "webp"])
     ∧ outputFormat = "pdf"
     ∧ dispatch lib file outputFormat
       = Spec.serve lib (convertImageToPdf lib (content file)) file outputFormat)
  ∨ ((∃ s, inputFormat = Some s ∧ s ∈ ["jpg"; "jpeg"; "png"; "gif"; "webp"; "bmp"])
     ∧ outputFormat ∈ ["jpg"; "jpeg"; "png"; "webp"]
     ∧ dispatch lib file outputFormat
       = Spec.serve lib (convertImageToImage lib (content file) outputFormat)
           file outputFormat)
  ∨ (inputFormat = Some "docx" ∧ outputFormat = "pdf"
     ∧ dispatch lib file outputFormat
       = Spec.serve lib (convertDocxToPdf lib (content file)) file outputFormat)
  ∨ (inputFormat = Some "docx" ∧ outputFormat = "txt"
     ∧ dispatch lib file outputFormat
       = Spec.serve lib (convertDocxToTxt lib (content file)) file outputFormat)
  ∨ (inputFormat = Some "txt" ∧ outputFormat = "pdf"
     ∧ dispatch lib file outputFormat
       = Spec.serve lib (convertTxtToPdf lib (content file)) file outputFormat)
  ∨ ((Spec.inDispatchTable inputFormat outputFormat = false
      ∨ (inputFormat = Some "bmp" ∧ outputFormat = "pdf"))
     ∧ dispatch lib file outputFormat
       = ret (json (unsupportedMessage inputFormat outputFormat) 400)).
Proof.
  cbv zeta. unfold dispatch, Spec.serve, Spec.inDispatchTable, Spec.serverImageFormats.
  generalize (inputFormatOf (name file)). intros inputFormat.
  destruct (bool_decide (inputFormat = Some "pdf")
            && includes ["jpg"; "jpeg"; "png"] outputFormat) eqn:H1.
  { left. apply andb_true_iff in H1 as [Hi Ho].
    apply bool_decide_eq_true in Hi. apply includes_true in Ho.
    split; [exact Hi|]. split; [exact Ho|].
    repeat (apply elem_of_cons in Ho as [->|Ho]; [reflexivity|]). inversion Ho. }
  destruct (includesOpt ["jpg"; "jpeg"; "png"; "gif"; "webp"] inputFormat
            && String.eqb outputFormat "pdf") eqn:H2.
  { right; left. apply andb_true_iff in H2 as [Hi Ho].
    apply includesOpt_true in Hi. apply String.eqb_eq in Ho. subst outputFormat.
    split; [exact Hi|]. split; reflexivity. }
  destruct (includesOpt ["jpg"; "jpeg"; "png"; "gif"; "webp"; "bmp"] inputFormat
            && includes ["jpg"; "jpeg"; "png"; "webp"] outputFormat) eqn:H3.
  { do 2 right; left. apply andb_true_iff in H3 as [Hi Ho].
    apply includesOpt_true in Hi. apply includes_true in Ho.
    split; [exact Hi|]. split; [exact Ho|].
    repeat (apply elem_of_cons in Ho as [->|Ho]; [reflexivity|]). inversion Ho. }
  destruct (bool_decide (inputFormat = Some "docx") && String.eqb outputFormat "pdf")
    eqn:H4.
  { do 3 right; left. apply andb_true_iff in H4 as [Hi Ho].
    apply bool_decide_eq_true in Hi. apply String.eqb_eq in Ho. subst outputFormat.
    split; [exact Hi|]. split; reflexivity. }
  destruct (bool_decide (inputFormat = Some "docx") && String.eqb outputFormat "txt")
    eqn:H5.
  { do 4 right; left. apply andb_true_iff in H5 as [Hi Ho].
    apply bool_decide_eq_true in Hi. apply String.eqb_eq in Ho. subst outputFormat.
    split; [exact Hi|]. split; reflexivity. }
  destruct (bool_decide (inputFormat = Some "txt") && String.eqb outputFormat "pdf")
    eqn:H6.
  { do 5 right; left. apply andb_true_iff in H6 as [Hi Ho].
    apply bool_decide_eq_true in Hi. apply String.eqb_eq in Ho. subst outputFormat.
    split; [exact Hi|]. split; reflexivity. }
  do 6 right. split; [|reflexivity].
  cbn [orb]. rewrite !orb_false_r.
  destruct (includesOpt ["jpg"; "jpeg"; "png"; "gif"; "webp"; "bmp"] inputFormat
            && String.eqb outputFormat "pdf") eqn:H7; [right|now left].
  apply andb_true_iff in H7 as [Hi Ho]. apply String.eqb_eq in Ho.
  split; [|exact Ho]. rewrite Ho, andb_true_r in H2.
  apply includesOpt_true in Hi as (s & -> & Hs).
  cbn [includesOpt] in H2.
  repeat (apply elem_of_cons in Hs as [->|Hs]; [try discriminate H2; reflexivity|]).
  inversion Hs.
Qed.


Lemma convertTxtToPdf_trace (lib : Libraries) (b : Buffer) :
  (convertTxtToPdf lib b).1 = [TxtToPdf].
Proof.
  unfold convertTxtToPdf, enter, rethrow, bind, lift. cbn [fst].
  destruct (layoutText lib b) as [doc|]; [|reflexivity].
  now destruct (save lib doc).
Qed.

Lemma convertDocxToPdf_result (lib : Libraries) (b : Buffer) :
  convertDocxToPdf lib b
  = match mammoth_extractRawText lib b with
    | Ok text => ([DocxToPdf; TxtToPdf], (convertTxtToPdf lib text).2)
    | Throw message => ([DocxToPdf], Throw message)
    end.
Proof.
  unfold convertDocxToPdf, enter, bind, lift.
  destruct (mammoth_extractRawText lib b) as [text|]; [|reflexivity].
  pose proof (convertTxtToPdf_trace lib text) as Ht.
  destruct (convertTxtToPdf lib text) as [trace [bytes|message]];
    cbn [fst snd] in *; subst trace; reflexivity.
Qed.

Lemma convertDocxToTxt_result (lib : Libraries) (b : Buffer) :
  convertDocxToTxt lib b = ([DocxToTxt], mammoth_extractRawText lib b).
Proof.
  unfold convertDocxToTxt, enter, bind, lift, ret.
  now destruct (mammoth_extractRawText lib b).
Qed.

(** The trace of each of the six converter calls. *)
Lemma converter_traces (lib : Libraries) (b : Buffer) (outputFormat : string)
    (run : M Buffer) :
  run ∈ [convertPdfToImage lib b outputFormat; convertImageToPdf lib b;
         convertImageToImage lib b outputFormat; convertDocxToPdf lib b;
         convertDocxToTxt lib b; convertTxtToPdf lib b] →
  run.1 ∈ [[PdfToImage]; [ImageToPdf]; [ImageToImage]; [DocxToTxt]; [TxtToPdf];
           [DocxToPdf; TxtToPdf]]
  ∨ (run.1 = [DocxToPdf] ∧ ∃ message, run.2 = Throw message).
Proof.
  intros Hrun.
  repeat (apply elem_of_cons in Hrun as [->|Hrun]).
  - left. rewrite convertPdfToImage_trace. in_list.
  - left. rewrite convertImageToPdf_trace. in_list.
  - left. unfold convertImageToImage, enter, lift, throw. cbn [fst].
    repeat (destruct (_ || _) || destruct (String.eqb _ _));
      try destruct (sharp_toBuffer lib _ _); cbn [fst app]; in_list.
  - rewrite convertDocxToPdf_result.
    destruct (mammoth_extractRawText lib b); [left; cbn [fst]; in_list|].
    right. cbn [fst snd]. eauto.
  - left. rewrite convertDocxToTxt_result. in_list.
  - left. rewrite convertTxtToPdf_trace. in_list.
  - inversion Hrun.
Qed.

(** X4: Which answer a request with a file and an output format gets.  The
    six conditions of the chain are told apart by the two formats alone;
    under each, the handler enters that one converter (the docx-to-pdf
    converter going on into the text one once the text is extracted) and
    answers 200 with the converter's bytes as a download when the converter
    returns and the response headers are accepted, and 500 with the message
    thrown otherwise; under none of them, which is when the pair is outside
    the table or is bmp to pdf, it enters no converter and answers 400.  So
    the status is 200, 400 or 500 whatever the request, 400 means no
    converter was entered, and 200 means a converter ran to its end. *)
Theorem POST_status_and_converters :
  (∀ (lib : Libraries) (file : File) (outputFormat : string) (run : M Buffer),
      outputFormat ≠ "" →
      (inputFormatOf (name file) = Some "pdf"
       ∧ outputFormat ∈ ["jpg"; "jpeg"; "png"]
       ∧ run = convertPdfToImage lib (content file) outputFormat)
      ∨ ((∃ s, inputFormatOf (name file) = Some s
               ∧ s ∈ ["jpg"; "jpeg"; "png"; "gif"; "webp"])
         ∧ outputFormat = "pdf"
         ∧ run = convertImageToPdf lib (content file))
      ∨ ((∃ s, inputFormatOf (name file) = Some s
               ∧ s ∈ ["jpg"; "jpeg"; "png"; "gif"; "webp"; "bmp"])
         ∧ outputFormat ∈ ["jpg"; "jpeg"; "png"; "webp"]
         ∧ run = convertImageToImage lib (content file) outputFormat)
      ∨ (inputFormatOf (name file) = Some "docx" ∧ outputFormat = "pdf"
         ∧ run = convertDocxToPdf lib (content file))
      ∨ (inputFormatOf (name file) = Some "docx" ∧ outputFormat = "txt"
         ∧ run = convertDocxToTxt lib (content file))
      ∨ (inputFormatOf (name file) = Some "txt" ∧ outputFormat = "pdf"
         ∧ run = convertTxtToPdf lib (content file)) →
      POST lib (mkRequest (Some file) (Some outputFormat))
      = (run.1,
         match run.2 with
         | Ok bytes =>
             match headersError lib
                     (downloadHeaders (Spec.mimeOf outputFormat)
                        (stem (name file) ++ "." ++ outputFormat)%string) with
             | None =>
                 downloadResponse bytes (Spec.mimeOf outputFormat)
                   (stem (name file) ++ "." ++ outputFormat)%string
             | Some message => json ("Conversion failed: " ++ message)%string 500
             end
         | Throw message => json ("Conversion failed: " ++ message)%string 500
         end))
  ∧ (∀ (lib : Libraries) (file : File) (outputFormat : string),
        outputFormat ≠ "" →
        Spec.inDispatchTable (inputFormatOf (name file)) outputFormat = false
        ∨ (inputFormatOf (name file) = Some "bmp" ∧ outputFormat = "pdf") →
        POST lib (mkRequest (Some file) (Some outputFormat))
        = ([], json (unsupportedMessage (inputFormatOf (name file)) outputFormat) 400))
  ∧ (∀ (lib : Libraries) (file : File) (outputFormat : string),
        (Spec.inDispatchTable (inputFormatOf (name file)) outputFormat = false
         ∨ (inputFormatOf (name file) = Some "bmp" ∧ outputFormat = "pdf"))
        ∨ (inputFormatOf (name file) = Some "pdf"
           ∧ outputFormat ∈ ["jpg"; "jpeg"; "png"])
        ∨ ((∃ s, inputFormatOf (name file) = Some s
                 ∧ s ∈ ["jpg"; "jpeg"; "png"; "gif"; "webp"])
           ∧ outputFormat = "pdf")
        ∨ ((∃ s, inputFormatOf (name file) = Some s
                 ∧ s ∈ ["jpg"; "jpeg"; "png"; "gif"; "webp"; "bmp"])
           ∧ outputFormat ∈ ["jpg"; "jpeg"; "png"; "webp"])
        ∨ (inputFormatOf (name file) = Some "docx" ∧ outputFormat = "pdf")
        ∨ (inputFormatOf (name file) = Some "docx" ∧ outputFormat = "txt")
        ∨ (inputFormatOf (name file) = Some "txt" ∧ outputFormat = "pdf"))
  ∧ (∀ (lib : Libraries) (request : Request),
        status (POST lib request).2 ∈ [200; 400; 500]
        ∧ (POST lib request).1
          ∈ [[]; [PdfToImage]; [ImageToPdf]; [ImageToImage]; [DocxToTxt];
             [TxtToPdf]; [DocxToPdf]; [DocxToPdf; TxtToPdf]]
        ∧ (status (POST lib request).2 = 400 →
           (POST lib request).1 = []
           ∧ ∃ error, body (POST lib request).2 = JsonError error)
        ∧ (status (POST lib request).2 = 200 →
           (POST lib request).1 ≠ [] ∧ (POST lib request).1 ≠ [DocxToPdf]
           ∧ ∃ bytes, body (POST lib request).2 = Bytes bytes)
        ∧ (status (POST lib request).2 = 500 →
           ∃ message,
             body (POST lib request).2
             = JsonError ("Conversion failed: " ++ message)%string)).
Proof.
  split; [|split; [|split]].
  - intros lib file outputFormat run Hne Hcase.
    apply POST_served; [exact Hne|].
    unfold dispatch, Spec.serve.
    destruct Hcase
      as [(Hi & Ho & ->)|[((s & Hi & Hs) & -> & ->)|[((s & Hi & Hs) & Ho & ->)
          |[(Hi & -> & ->)|[(Hi & -> & ->)|(Hi & -> & ->)]]]]];
      rewrite Hi.
    + repeat (apply elem_of_cons in Ho as [->|Ho]; [reflexivity|]). inversion Ho.
    + repeat (apply elem_of_cons in Hs as [->|Hs]; [reflexivity|]). inversion Hs.
    + repeat (apply elem_of_cons in Hs as [->|Hs];
              [repeat (apply elem_of_cons in Ho as [->|Ho]; [reflexivity|]);
               inversion Ho|]).
      inversion Hs.
    + reflexivity.
    + reflexivity.
    + reflexivity.
  - intros lib file outputFormat Hne Hnone.
    rewrite (POST_dispatch lib file outputFormat Hne).
    destruct Hnone as [Hnone|[Hbmp ->]].
    + now rewrite (dispatch_unsupported lib file outputFormat Hnone).
    + unfold dispatch. rewrite Hbmp. reflexivity.
  - intros lib file outputFormat.
    destruct (dispatch_branch lib file outputFormat)
      as [(Hi & Ho & _)|[(Hi & Ho & _)|[(Hi & Ho & _)
          |[(Hi & Ho & _)|[(Hi & Ho & _)|[(Hi & Ho & _)|[Hnone _]]]]]]]; tauto.
  - intros lib [[file|] [outputFormat|]];
      try (cbn; split; [in_list|]; split; [in_list|];
           repeat split; try discriminate; eauto; fail).
    destruct (String.eqb_spec outputFormat "") as [->|Hne].
    { cbn; split; [in_list|]; split; [in_list|];
        repeat split; try discriminate; eauto. }
    destruct (dispatch_branch lib file outputFormat)
      as [(_ & _ & Hd)|[(_ & _ & Hd)|[(_ & Ho & Hd)|[(_ & _ & Hd)|[(_ & _ & Hd)
          |[(_ & _ & Hd)|[_ Hd]]]]]]];
      try rewrite (POST_served lib file outputFormat _ Hne Hd).
    7: { rewrite (POST_dispatch lib file outputFormat Hne), Hd.
         cbn; split; [in_list|]; split; [in_list|];
           repeat split; try discriminate; eauto. }
    all: match goal with
         | |- context [(?r).2] =>
             match r with
             | POST _ _ => fail 1
             | _ =>
                 let Ht := fresh "Ht" in
                 assert (Ht : r ∈ [convertPdfToImage lib (content file) outputFormat;
                                   convertImageToPdf lib (content file);
                                   convertImageToImage lib (content file) outputFormat;
                                   convertDocxToPdf lib (content file);
                                   convertDocxToTxt lib (content file);
                                   convertTxtToPdf lib (content file)]) by in_list;
                 apply converter_traces in Ht;
                 destruct r as [trace [bytes|message]]
             end
         end;
      cbn [fst snd] in *;
      try destruct (headersError lib _);
      (destruct Ht as [Ht|[-> [? Hthrown]]]; [|try discriminate Hthrown]);
      cbn [status body json downloadResponse fst snd];
      (split; [in_list|]);
      (split; [repeat (apply elem_of_cons in Ht as [->|Ht]; [in_list|]);
               try inversion Ht; in_list|]);
      repeat split; try discriminate; eauto;
      try (intros ->; not_in_list Ht).
Qed.

(** X5: A 200 answer is a download: the output format is one of six, its
    Content-Type is the one that goes with it (jpg is sent as image/jpeg),
    and the file is named after the upload's text before its first dot. *)
Theorem POST_download_headers :
  ∀ (lib : Libraries) (file : File) (outputFormat : string),
    status (POST lib (mkRequest (Some file) (Some outputFormat))).2 = 200 →
    outputFormat ∈ ["jpg"; "jpeg"; "png"; "webp"; "pdf"; "txt"]
    ∧ Spec.mimeOf outputFormat
      ∈ ["image/jpeg"; "image/png"; "image/webp"; "application/pdf"; "text/plain"]
    ∧ headers (POST lib (mkRequest (Some file) (Some outputFormat))).2
      = [("Content-Type", Spec.mimeOf outputFormat);
         ("Content-Disposition",
          ("attachment; filename=" ++ quote
             ++ (stem (name file) ++ "." ++ outputFormat) ++ quote)%string)].
Proof.
  intros lib file outputFormat.
  destruct (String.eqb_spec outputFormat "") as [->|Hne]; [discriminate|].
  assert (Hheaders : ∀ outcome : result Buffer,
             status (match outcome with
                     | Ok bytes =>
                         match headersError lib
                                 (downloadHeaders (Spec.mimeOf outputFormat)
                                    (stem (name file) ++ "." ++ outputFormat)%string) with
                         | None =>
                             downloadResponse bytes (Spec.mimeOf outputFormat)
                               (stem (name file) ++ "." ++ outputFormat)%string
                         | Some message =>
                             json ("Conversion failed: " ++ message)%string 500
                         end
                     | Throw message =>
                         json ("Conversion failed: " ++ message)%string 500
                     end) = 200 →
             headers (match outcome with
                      | Ok bytes =>
                          match headersError lib
                                  (downloadHeaders (Spec.mimeOf outputFormat)
                                     (stem (name file) ++ "." ++ outputFormat)%string) with
                          | None =>
                              downloadResponse bytes (Spec.mimeOf outputFormat)
                                (stem (name file) ++ "." ++ outputFormat)%string
                          | Some message =>
                              json ("Conversion failed: " ++ message)%string 500
                          end
                      | Throw message =>
                          json ("Conversion failed: " ++ message)%string 500
                      end)
             = [("Content-Type", Spec.mimeOf outputFormat);
                ("Content-Disposition",
                 ("attachment; filename=" ++ quote
                    ++ (stem (name file) ++ "." ++ outputFormat) ++ quote)%string)]).
  { intros [bytes|message]; [|discriminate].
    destruct (headersError lib _); [discriminate|reflexivity]. }
  destruct (dispatch_branch lib file outputFormat)
    as [(_ & Ho & Hd)|[(_ & -> & Hd)|[(_ & Ho & Hd)|[(_ & -> & Hd)|[(_ & -> & Hd)
        |[(_ & -> & Hd)|[_ Hd]]]]]]];
    try (rewrite (POST_served lib file _ _ Hne Hd); cbn [snd]; intros H200;
         split; [|split; [|now apply Hheaders]]).
  - repeat (apply elem_of_cons in Ho as [->|Ho]; [in_list|]). inversion Ho.
  - repeat (apply elem_of_cons in Ho as [->|Ho]; [in_list|]). inversion Ho.
  - in_list.
  - in_list.
  - repeat (apply elem_of_cons in Ho as [->|Ho]; [in_list|]). inversion Ho.
  - repeat (apply elem_of_cons in Ho as [->|Ho]; [in_list|]). inversion Ho.
  - in_list.
  - in_list.
  - in_list.
  - in_list.
  - in_list.
  - in_list.
  - rewrite (POST_dispatch lib file outputFormat Hne), Hd. discriminate.
Qed.

(** X6: A request without a file is answered 500, not 400: the file's name is
    read before the check for missing fields.  A request with a file and
    no output format, or an empty one, is answered 400.  Neither enters a
    converter. *)
Theorem POST_missing_fields :
  ∀ lib : Libraries,
    (∀ outputFormat : option string,
        (POST lib (mkRequest None outputFormat)).1 = []
        ∧ status (POST lib (mkRequest None outputFormat)).2 = 500)
    ∧ (∀ (file : File) (outputFormat : option string),
          outputFormat = None ∨ outputFormat = Some "" →
          POST lib (mkRequest (Some file) outputFormat)
          = ([], json "Missing file or output format" 400)).
Proof.
  intros lib. split.
  - intros outputFormat. split; reflexivity.
  - intros file outputFormat [->| ->]; reflexivity.
Qed.


(** X8: A docx upload: when the extraction throws, both conversions answer 500
    with the extractor's own message and the text converter is never
    entered; otherwise docx-to-txt returns the extracted text itself as
    text/plain when the response headers are accepted, and answers 500 with
    the constructor's message when they are not; and docx-to-pdf answers
    exactly what the handler answers for a txt upload of that text under
    the same name stem. *)
Theorem POST_docx_goes_through_its_text :
  ∀ (lib : Libraries) (file : File),
    inputFormatOf (name file) = Some "docx" →
    (∀ message : string,
        mammoth_extractRawText lib (content file) = Throw message →
        POST lib (mkRequest (Some file) (Some "pdf"))
        = ([DocxToPdf], json ("Conversion failed: " ++ message)%string 500)
        ∧ POST lib (mkRequest (Some file) (Some "txt"))
          = ([DocxToTxt], json ("Conversion failed: " ++ message)%string 500))
    ∧ (∀ text : string,
          mammoth_extractRawText lib (content file) = Ok text →
          (headersError lib
             (downloadHeaders "text/plain" (stem (name file) ++ ".txt")%string) = None →
           POST lib (mkRequest (Some file) (Some "txt"))
           = ([DocxToTxt],
              downloadResponse text "text/plain" (stem (name file) ++ ".txt")%string))
          ∧ (∀ message : string,
                headersError lib
                  (downloadHeaders "text/plain" (stem (name file) ++ ".txt")%string)
                = Some message →
                POST lib (mkRequest (Some file) (Some "txt"))
                = ([DocxToTxt], json ("Conversion failed: " ++ message)%string 500))
          ∧ (POST lib (mkRequest (Some file) (Some "pdf"))).1 = [DocxToPdf; TxtToPdf]
          ∧ ∀ txtFile : File,
              inputFormatOf (name txtFile) = Some "txt" →
              stem (name txtFile) = stem (name file) →
              content txtFile = text →
              (POST lib (mkRequest (Some file) (Some "pdf"))).2
              = (POST lib (mkRequest (Some txtFile) (Some "pdf"))).2).
Proof.
  intros lib file Hfmt.
  assert (Hpdf : dispatch lib file "pdf"
                 = Spec.serve lib (convertDocxToPdf lib (content file)) file "pdf").
  { unfold dispatch. rewrite Hfmt. reflexivity. }
  assert (Htxt : dispatch lib file "txt"
                 = Spec.serve lib (convertDocxToTxt lib (content file)) file "txt").
  { unfold dispatch. rewrite Hfmt. reflexivity. }
  rewrite (POST_served lib file "pdf" _ ltac:(discriminate) Hpdf),
    (POST_served lib file "txt" _ ltac:(discriminate) Htxt),
    convertDocxToPdf_result, convertDocxToTxt_result.
  change (Spec.mimeOf "txt") with "text/plain".
  change (stem (name file) ++ "." ++ "txt")%string
    with (stem (name file) ++ ".txt")%string.
  split.
  - intros message ->. split; reflexivity.
  - intros text ->. cbn [fst snd].
    split; [now intros ->|]. split; [now intros message ->|].
    split; [reflexivity|].
    intros txtFile Htxtfmt Hstem Hcontent.
    assert (Hd : dispatch lib txtFile "pdf"
                 = Spec.serve lib (convertTxtToPdf lib (content txtFile)) txtFile "pdf").
    { unfold dispatch. rewrite Htxtfmt. reflexivity. }
    rewrite (POST_served lib txtFile "pdf" _ ltac:(discriminate) Hd).
    cbn [fst snd]. now rewrite Hcontent, Hstem.
Qed.

End HandlerFacts.

Section HandlerFactsWitnesses.

#[local] Existing Instance sampleUnicode.

Lemma POST_status_and_converters_witness :
  POST sampleLibraries (mkRequest (Some (mkFile "notes.txt" "hello")) (Some "pdf"))
  = ([TxtToPdf], downloadResponse "%PDF" "application/pdf" "notes.pdf")
  ∧ POST failingLibraries (mkRequest (Some (mkFile "notes.txt" "hello")) (Some "pdf"))
    = ([TxtToPdf], json "Conversion failed: Text to PDF conversion failed" 500)
  ∧ POST sampleLibraries (mkRequest (Some (mkFile "notes.txt" "hello")) (Some "docx"))
    = ([], json "Conversion from TXT to DOCX is not supported yet. Currently supported: Image ↔ Image, Image ↔ PDF, DOCX → PDF/TXT, TXT → PDF" 400).
Proof.
  destruct POST_status_and_converters as (Hserved & Hnone & _).
  split; [|split].
  - apply (Hserved sampleLibraries (mkFile "notes.txt" "hello") "pdf"
             (convertTxtToPdf sampleLibraries "hello")); [discriminate|].
    do 5 right. repeat split.
  - apply (Hserved failingLibraries (mkFile "notes.txt" "hello") "pdf"
             (convertTxtToPdf failingLibraries "hello")); [discriminate|].
    do 5 right. repeat split.
  - apply (Hnone sampleLibraries (mkFile "notes.txt" "hello") "docx"); [discriminate|].
    left. reflexivity.
Defined.

Lemma POST_download_headers_witness :
  headers (POST sampleLibraries
             (mkRequest (Some (mkFile "my.report.v2.PNG" "png-bytes")) (Some "jpg"))).2
  = [("Content-Type", "image/jpeg");
     ("Content-Disposition", ("attachment; filename=" ++ quote ++ "my.jpg" ++ quote)%string)].
Proof.
  apply (POST_download_headers sampleLibraries
           (mkFile "my.report.v2.PNG" "png-bytes") "jpg"). reflexivity.
Defined.

Lemma POST_missing_fields_witness :
  POST sampleLibraries (mkRequest (Some (mkFile "a.png" "")) None)
  = ([], json "Missing file or output format" 400).
Proof.
  apply (proj2 (POST_missing_fields sampleLibraries) (mkFile "a.png" "") None).
  now left.
Defined.


Lemma POST_docx_goes_through_its_text_witness :
  POST sampleLibraries (mkRequest (Some (mkFile "report.docx" "PK..")) (Some "txt"))
  = ([DocxToTxt], downloadResponse "text" "text/plain" "report.txt")
  ∧ (POST sampleLibraries (mkRequest (Some (mkFile "report.docx" "PK..")) (Some "pdf"))).2
    = (POST sampleLibraries (mkRequest (Some (mkFile "report.txt" "text")) (Some "pdf"))).2.
Proof.
  destruct (POST_docx_goes_through_its_text sampleLibraries
              (mkFile "report.docx" "PK..") eq_refl) as [_ Hok].
  destruct (Hok "text" eq_refl) as (Htxt & _ & _ & Hpdf).
  split; [apply Htxt; reflexivity|].
  apply (Hpdf (mkFile "report.txt" "text")); reflexivity.
Defined.

End HandlerFactsWitnesses.

(** ** What the menu offers and what the server serves *)

Section MenuAgainstServerFacts.

Context {unicode : Unicode}.

(** A non-empty identifier in the client is the handler's input format. *)
Lemma getFileExtension_inputFormatOf (filename ext : string) :
  getFileExtension filename = ext → ext ≠ "" →
  inputFormatOf filename = Some ext.
Proof.
  unfold getFileExtension, inputFormatOf.
  destruct (toLowerCase <$> pop (split "."%char filename)) as [s|].
  - rewrite (orStr_empty s). now intros ->.
  - cbn. now intros <-.
Qed.

(** X9: For doc, rtf, svg, pptx, ppt, odp, csv, xlsx and xls the menu is not
    empty and the client sends the file to the server, yet the server
    answers 400 whatever output format is asked for, and enters no
    converter. *)
Theorem offered_formats_the_server_never_converts :
  ∀ (browser : Browser) (lib : Libraries) (file : File) (outputFormat : string),
    getFileExtension (name file)
    ∈ ["doc"; "rtf"; "svg"; "pptx"; "ppt"; "odp"; "csv"; "xlsx"; "xls"] →
    (∃ offered : list string,
        getAvailableOutputFormats [file] = Ok offered ∧ offered ≠ [])
    ∧ (convertBlob browser file outputFormat).1
      = [Fetch "/api/convert" file outputFormat]
    ∧ (POST lib (mkRequest (Some file) (Some outputFormat))).1 = []
    ∧ status (POST lib (mkRequest (Some file) (Some outputFormat))).2 = 400.
Proof.
  intros browser lib file outputFormat Hin.
  assert (Hunsupported :
            ∀ ext, getFileExtension (name file) = ext → ext ≠ "" →
                   Spec.inDispatchTable (Some ext) outputFormat = false →
                   (POST lib (mkRequest (Some file) (Some outputFormat))).1 = []
                   ∧ status (POST lib (mkRequest (Some file) (Some outputFormat))).2
                     = 400).
  { intros ext Hext Hne Htable.
    pose proof (getFileExtension_inputFormatOf _ _ Hext Hne) as Hfmt.
    destruct (String.eqb_spec outputFormat "") as [->|Hout]; [split; reflexivity|].
    rewrite (POST_dispatch lib file outputFormat Hout), dispatch_unsupported;
      [split; reflexivity|now rewrite Hfmt]. }
  repeat (apply elem_of_cons in Hin as [Hext|Hin];
          [split; [eexists; unfold getAvailableOutputFormats; rewrite Hext;
                   split; [reflexivity|discriminate]|];
           split; [unfold convertBlob; rewrite Hext; reflexivity|];
           apply (Hunsupported _ Hext); [discriminate|reflexivity]|]).
  inversion Hin.
Qed.

(** X10: Of the eleven outputs the menu offers for a pdf, the server serves
    jpg, jpeg and png and answers 400 for the other eight. *)
Theorem pdf_menu_three_of_eleven_served :
  ∀ (lib : Libraries) (file : File) (offered : list string) (outputFormat : string),
    getFileExtension (name file) = "pdf" →
    getAvailableOutputFormats [file] = Ok offered →
    outputFormat ∈ offered →
    length offered = 11
    ∧ (status (POST lib (mkRequest (Some file) (Some outputFormat))).2 = 400
       ↔ outputFormat ∉ ["jpg"; "jpeg"; "png"]).
Proof.
  intros lib file offered outputFormat Hext Hmenu Hin.
  pose proof (getFileExtension_inputFormatOf _ _ Hext ltac:(discriminate)) as Hfmt.
  assert (Hlist : getAvailableOutputFormats [file]
                  = Ok ["jpg"; "jpeg"; "png"; "gif"; "bmp"; "webp"; "svg";
                        "docx"; "doc"; "txt"; "rtf"]).
  { unfold getAvailableOutputFormats. rewrite Hext. reflexivity. }
  rewrite Hlist in Hmenu. injection Hmenu as <-. split; [reflexivity|].
  assert (Hserved : outputFormat ∈ ["jpg"; "jpeg"; "png"] →
            status (POST lib (mkRequest (Some file) (Some outputFormat))).2 ≠ 400).
  { intros Ho.
    assert (Hd : dispatch lib file outputFormat
                 = Spec.serve lib (convertPdfToImage lib (content file) outputFormat)
                     file outputFormat).
    { unfold dispatch. rewrite Hfmt.
      repeat (apply elem_of_cons in Ho as [->|Ho]; [reflexivity|]). inversion Ho. }
    rewrite (POST_served lib file outputFormat _ ltac:(intros ->; not_in_list Ho) Hd).
    destruct (convertPdfToImage lib (content file) outputFormat).2; cbn;
      [destruct (headersError lib _); cbn|]; discriminate. }
  assert (Hrefused : Spec.inDispatchTable (Some "pdf") outputFormat = false →
            outputFormat ≠ "" →
            status (POST lib (mkRequest (Some file) (Some outputFormat))).2 = 400).
  { intros Htable Hne.
    rewrite (POST_dispatch lib file outputFormat Hne), dispatch_unsupported;
      [reflexivity|now rewrite Hfmt]. }
  repeat (apply elem_of_cons in Hin as [->|Hin];
          [first [ split; [intros H; exfalso; revert H; apply Hserved; in_list
                          |intros H; exfalso; apply H; in_list]
                 | split; [intros _ H; not_in_list H
                          |intros _; apply Hrefused; [reflexivity|discriminate]] ]|]).
  inversion Hin.
Qed.

End MenuAgainstServerFacts.

Section MenuAgainstServerFactsWitnesses.

#[local] Existing Instance sampleUnicode.

Lemma offered_formats_the_server_never_converts_witness :
  (∃ offered : list string,
      getAvailableOutputFormats [mkFile "slides.pptx" ""] = Ok offered ∧ offered ≠ [])
  ∧ status (POST sampleLibraries
              (mkRequest (Some (mkFile "slides.pptx" "")) (Some "ppt"))).2 = 400.
Proof.
  destruct (offered_formats_the_server_never_converts sampleBrowser sampleLibraries
              (mkFile "slides.pptx" "") "ppt") as (Hmenu & _ & _ & Hstatus).
  - vm_compute. in_list.
  - split; [exact Hmenu|exact Hstatus].
Defined.

Lemma pdf_menu_three_of_eleven_served_witness :
  status (POST sampleLibraries (mkRequest (Some (mkFile "a.pdf" "")) (Some "docx"))).2
  = 400.
Proof.
  apply (pdf_menu_three_of_eleven_served sampleLibraries (mkFile "a.pdf" "")
           _ "docx" eq_refl eq_refl); [vm_compute; in_list|].
  intros H. not_in_list H.
Defined.

End MenuAgainstServerFactsWitnesses.

(** ** The format tables and the menu *)

Section TableFacts.

Context {unicode : Unicode}.

Lemma supportedFormats_Some (category : string) (formats : list string) :
  supportedFormats !! category = Some formats →
  (category, formats)
  ∈ [ ("document", ["pdf"; "docx"; "doc"; "txt"; "rtf"]);
      ("presentation", ["pptx"; "ppt"; "odp"]);
      ("image", ["jpg"; "jpeg"; "png"; "gif"; "bmp"; "webp"; "svg"]);
      ("other", ["csv"; "xlsx"; "xls"]) ].
Proof. apply elem_of_list_to_map_2. Qed.

(** X11: The two tables say the same: a format has a category in
    [formatCategories] exactly when [supportedFormats] lists it under that
    category. *)
Theorem format_tables_agree :
  ∀ format category : string,
    formatCategories !! format = Some category
    ↔ ∃ formats : list string,
        supportedFormats !! category = Some formats ∧ format ∈ formats.
Proof.
  intros format category. split.
  - intros H. apply formatCategories_Some in H. unfold formatCategories_entries in H.
    repeat (apply elem_of_cons in H as [[= -> ->]|H];
            [eexists; split; [reflexivity|in_list]|]).
    inversion H.
  - intros (formats & Hcat & Hin). apply supportedFormats_Some in Hcat.
    repeat (apply elem_of_cons in Hcat as [[= -> ->]|Hcat];
            [repeat (apply elem_of_cons in Hin as [->|Hin]; [reflexivity|]);
             inversion Hin|]).
    inversion Hcat.
Qed.

(** X12: For a file of a recognised format the menu is never empty, never holds
    the file's own format, and holds only recognised formats: those of the
    file's own family and pdf, and for a pdf the image formats too. *)
Theorem menu_for_recognised_format :
  ∀ (file : File) (rest : list File) (category : string),
    formatCategories !! getFileExtension (name file) = Some category →
    ∃ offered : list string,
      getAvailableOutputFormats (file :: rest) = Ok offered
      ∧ offered ≠ []
      ∧ (getFileExtension (name file) ∉ offered)
      ∧ Forall (λ format,
                  formatCategories !! format = Some category
                  ∨ format = "pdf"
                  ∨ (getFileExtension (name file) = "pdf"
                     ∧ formatCategories !! format = Some "image"))
               offered.
Proof.
  intros file rest category H.
  pose proof (formatCategories_Some _ _ H) as Hin.
  unfold getAvailableOutputFormats. unfold formatCategories_entries in Hin.
  repeat (apply elem_of_cons in Hin as [[= Hext ->]|Hin];
          [rewrite Hext; eexists; split; [reflexivity|];
           split; [discriminate|]; split; [intros Hself; not_in_list Hself|];
           repeat (apply Forall_cons; split;
                   [first [left; reflexivity | right; left; reflexivity
                          | right; right; split; reflexivity]|]);
           apply Forall_nil_2|]).
  inversion Hin.
Qed.

(** X13: A file gets the image icon exactly when its extension, in any letter
    case, is one of the seven image formats. *)
Theorem getFileIcon_image_family :
  ∀ filename : string,
    getFileIcon filename = ImageIcon
    ↔ getFileExtension filename ∈ ["jpg"; "jpeg"; "png"; "gif"; "bmp"; "webp"; "svg"].
Proof.
  intros filename. unfold getFileIcon. split.
  - destruct (getProperty formatCategories (getFileExtension filename))
      as [category| |] eqn:H; [|discriminate|discriminate].
    apply getProperty_Own, formatCategories_Some in H.
    unfold formatCategories_entries in H.
    repeat (apply elem_of_cons in H as [[= -> ->]|H];
            [first [intros _; in_list | discriminate]|]).
    inversion H.
  - intros H.
    repeat (apply elem_of_cons in H as [->|H]; [reflexivity|]). inversion H.
Qed.

(** X14: The drop zone lists, with a leading dot, every format that has a
    category except odp. *)
Theorem accepted_extensions_are_the_categories_but_odp :
  ∀ ext : string,
    ("." ++ ext)%string ∈ acceptedExtensions
    ↔ is_Some (formatCategories !! ext) ∧ ext ≠ "odp".
Proof.
  intros ext. split.
  - intros H. change (("." ++ ext)%string) with (String "."%char ext) in H.
    vm_compute in H.
    repeat (apply elem_of_cons in H as [[= ->]|H];
            [split; [eexists; reflexivity|discriminate]|]).
    inversion H.
  - intros [[category H] Hodp].
    apply formatCategories_Some in H. unfold formatCategories_entries in H.
    repeat (apply elem_of_cons in H as [[= -> ->]|H];
            [first [now contradiction Hodp | vm_compute; in_list]|]).
    inversion H.
Qed.

End TableFacts.

Section TableFactsWitnesses.

#[local] Existing Instance sampleUnicode.

Lemma menu_for_recognised_format_witness :
  ∃ offered : list string,
    getAvailableOutputFormats [mkFile "Sheet.XLSX" ""] = Ok offered
    ∧ offered ≠ []
    ∧ "xlsx" ∉ offered.
Proof.
  destruct (menu_for_recognised_format (mkFile "Sheet.XLSX" "") [] "other" eq_refl)
    as (offered & Hmenu & Hne & Hself & _).
  exists offered. split; [exact Hmenu|]. split; [exact Hne|exact Hself].
Defined.

End TableFactsWitnesses.

(** ** File names with several dots *)

Section FileNameFacts.

Context {unicode : Unicode}.

(** Splitting a string that has a separator in the middle splits both
    sides. *)
Lemma split_app (c : ascii) (a b : string) :
  split c (a ++ String c b)%string = split c a ++ split c b.
Proof.
  induction a as [|d a IH].
  - change ("" ++ String c b)%string with (String c b). cbn [split].
    now rewrite Ascii.eqb_refl.
  - change (String d a ++ String c b)%string with (String d (a ++ String c b)%string).
    cbn [split]. destruct (Ascii.eqb d c); [now rewrite IH|].
    rewrite IH. pose proof (split_nonempty c a).
    destruct (split c a); [contradiction|reflexivity].
Qed.

(** X15: The identifier is the lower-cased text after the last dot, in the client
    and in the handler; the download's name stem is the text before the
    first dot, so everything between the first and the last dot of the
    upload's name is dropped. *)
Theorem extension_after_last_dot_stem_before_first :
  (∀ base ext : string,
      hasChar "."%char ext = false →
      getFileExtension (base ++ "." ++ ext)%string = toLowerCase ext
      ∧ inputFormatOf (base ++ "." ++ ext)%string = Some (toLowerCase ext))
  ∧ (∀ first rest : string,
        hasChar "."%char first = false →
        Client.stem (first ++ "." ++ rest)%string = first
        ∧ Server.stem (first ++ "." ++ rest)%string = first).
Proof.
  split.
  - intros base ext H.
    assert (Hlast : pop (split "."%char (base ++ "." ++ ext)%string) = Some ext).
    { change ("." ++ ext)%string with (String "."%char ext).
      unfold pop. rewrite split_app, (split_dotless _ _ H), last_snoc. reflexivity. }
    unfold getFileExtension, inputFormatOf. rewrite Hlast. cbn [fmap option_fmap option_map].
    split; [apply orStr_empty|reflexivity].
  - intros first rest H.
    assert (Hhead : ∃ pieces, split "."%char (first ++ "." ++ rest)%string
                              = first :: pieces).
    { change ("." ++ rest)%string with (String "."%char rest).
      rewrite split_app, (split_dotless _ _ H). eexists. reflexivity. }
    destruct Hhead as [pieces Hhead].
    unfold Client.stem, Server.stem. now rewrite Hhead.
Qed.

End FileNameFacts.

Section FileNameFactsWitnesses.

#[local] Existing Instance sampleUnicode.

Lemma extension_after_last_dot_stem_before_first_witness :
  getFileExtension "my.report.v2.DOCX" = "docx"
  ∧ Server.stem "my.report.v2.DOCX" = "my".
Proof.
  destruct extension_after_last_dot_stem_before_first as [Hext Hstem].
  split.
  - apply (Hext "my.report.v2" "DOCX"). reflexivity.
  - apply (Hstem "my" "report.v2.DOCX"). reflexivity.
Defined.

End FileNameFactsWitnesses.

(** ** Removing an uploaded file *)

Section RemoveFileFacts.

Context {unicode : Unicode}.

Lemma filterIndexFrom_all {A} (keep : nat → bool) (l : list A) (from : nat) :
  (∀ i, (from ≤ i)%nat → keep i = true) → filterIndexFrom keep from l = l.
Proof.
  revert from. induction l as [|x l IH]; intros from H; [reflexivity|].
  cbn [filterIndexFrom]. rewrite (H from) by lia. f_equal.
  apply IH. intros i Hi. apply H. lia.
Qed.

Lemma filterIndexFrom_delete {A} (l : list A) (from index : nat) :
  filterIndexFrom (λ i, negb (i =? from + index)%nat) from l
  = take index l ++ drop (S index) l.
Proof.
  revert from index. induction l as [|x l IH]; intros from index.
  - now rewrite take_nil, drop_nil.
  - cbn [filterIndexFrom]. destruct index as [|index].
    + rewrite Nat.add_0_r, Nat.eqb_refl. cbn [negb take drop app].
      rewrite drop_0. apply filterIndexFrom_all. intros i Hi.
      destruct (Nat.eqb_spec i from); [lia|reflexivity].
    + destruct (Nat.eqb_spec from (from + S index)) as [Heq|_]; [lia|]. cbn [negb].
      cbn [take drop app]. f_equal.
      replace (from + S index) with (S from + index) by lia. apply IH.
Qed.

(** X16: Removing index [i] takes exactly the file at that place out of the list
    and keeps the others in order; an index past the end leaves the list
    as it is.  In both cases the chosen output format is cleared and every
    converted file is forgotten. *)
Theorem removeFile_deletes_one_and_resets :
  ∀ (index : nat) (c : Component),
    files (removeFile index c) = take index (files c) ++ drop (S index) (files c)
    ∧ ((index < length (files c))%nat →
       S (length (files (removeFile index c))) = length (files c))
    ∧ ((length (files c) ≤ index)%nat → files (removeFile index c) = files c)
    ∧ outputFormat (removeFile index c) = ""
    ∧ converted (removeFile index c) = [].
Proof.
  intros index c.
  assert (H : files (removeFile index c)
              = take index (files c) ++ drop (S index) (files c)).
  { unfold removeFile. cbn [files]. apply (filterIndexFrom_delete (files c) 0 index). }
  split; [exact H|]. rewrite H. split; [|split; [|split; reflexivity]].
  - intros Hlt. rewrite length_app, length_take, length_drop. lia.
  - intros Hge. rewrite take_ge by lia. rewrite drop_ge by lia. apply app_nil_r.
Qed.

End RemoveFileFacts.

Section RemoveFileFactsWitnesses.

#[local] Existing Instance sampleUnicode.

Lemma removeFile_deletes_one_and_resets_witness :
  files (removeFile 1 (mkComponent [mkFile "a.png" ""; mkFile "b.pdf" ""; mkFile "c.txt" ""]
                         "jpg" [mkConverted "a.jpg" "blob:1"]))
  = [mkFile "a.png" ""; mkFile "c.txt" ""]
  ∧ files (removeFile 7 (mkComponent [mkFile "a.png" ""] "jpg" []))
    = [mkFile "a.png" ""].
Proof.
  split.
  - exact (proj1 (removeFile_deletes_one_and_resets 1
             (mkComponent [mkFile "a.png" ""; mkFile "b.pdf" ""; mkFile "c.txt" ""]
                "jpg" [mkConverted "a.jpg" "blob:1"]))).
  - apply (proj1 (proj2 (proj2 (removeFile_deletes_one_and_resets 7
             (mkComponent [mkFile "a.png" ""] "jpg" []))))). cbn. lia.
Defined.

End RemoveFileFactsWitnesses.

(** ** A batch of files *)

Section BatchFacts.

Context {unicode : Unicode}.
Variable browser : Browser.
Variable outputFormat : string.

Lemma convertFiles_prefix (batch : list File) (st : State) :
  ∃ (k : nat) (blobs : list Blob),
    (k ≤ length batch)%nat
    ∧ Forall2 (λ file convertedBlob,
                 (convertBlob browser file outputFormat).2 = Ok convertedBlob)
              (take k batch) blobs
    ∧ convertedFiles (convertFiles browser batch outputFormat st).2
      = convertedFiles st
          ++ zip_with (λ file convertedBlob,
                         mkConverted
                           (Client.stem (name file) ++ "." ++ outputFormat)%string
                           (createObjectURL browser convertedBlob))
                      (take k batch) blobs
    ∧ (convertFiles browser batch outputFormat st).1
      = take (S k) batch ≫= (λ file, (convertBlob browser file outputFormat).1)
    ∧ (k = length batch →
       error (convertFiles browser batch outputFormat st).2 = error st)
    ∧ (∀ file, batch !! k = Some file →
               (convertBlob browser file outputFormat).2
               = Throw (error (convertFiles browser batch outputFormat st).2)).
Proof.
  revert st. induction batch as [|file batch IH]; intros st.
  - exists 0, []. cbn. rewrite app_nil_r.
    repeat split; try constructor; try reflexivity. intros file [=].
  - cbn [convertFiles].
    destruct (convertBlob browser file outputFormat) as [effects [convertedBlob|message]]
      eqn:Hblob.
    + destruct (IH (mkState
                      (convertedFiles st
                         ++ [mkConverted
                               (Client.stem (name file) ++ "." ++ outputFormat)%string
                               (createObjectURL browser convertedBlob)])
                      (error st)))
        as (k & blobs & Hle & Hok & Hconv & Heff & Herr & Hfail).
      destruct (convertFiles browser batch outputFormat _) as [effects' st'].
      cbn [fst snd convertedFiles error] in *.
      exists (S k), (convertedBlob :: blobs).
      split; [cbn; lia|]. split; [|split; [|split; [|split]]].
      * cbn [take]. constructor; [now rewrite Hblob|exact Hok].
      * cbn [take zip_with]. rewrite Hconv, <- app_assoc. reflexivity.
      * change (take (S (S k)) (file :: batch)) with (file :: take (S k) batch).
        cbn [mbind list_bind]. rewrite Hblob. cbn [fst]. now rewrite Heff.
      * intros [= Hk]. auto.
      * intros file' Hlookup. cbn in Hlookup. auto.
    + exists 0, []. cbn. rewrite !app_nil_r, Hblob.
      repeat split; try constructor; try reflexivity; try lia; try discriminate.
      intros file' [= <-]. now rewrite Hblob.
Qed.

End BatchFacts.

Section BatchTheorem.

Context {unicode : Unicode}.

(** X17: With no file or no output format chosen the handler does nothing at
    all.  Otherwise it works through the files in order and stops at the
    first one whose conversion throws: the files before it are added, in
    order, to the converted files already there, each named after its stem
    and the output format; the failing file's message becomes the error;
    the files after it are not touched.  When every file went through the
    error is left empty. *)
Theorem handleConvert_stops_at_first_failure :
  ∀ (browser : Browser) (batch : list File) (outputFormat : string) (st : State),
    (batch = [] ∨ outputFormat = "" →
     handleConvert browser batch outputFormat st = ([], st))
    ∧ (batch ≠ [] → outputFormat ≠ "" →
       ∃ (k : nat) (blobs : list Blob),
         (k ≤ length batch)%nat
         ∧ Forall2 (λ file convertedBlob,
                      (convertBlob browser file outputFormat).2 = Ok convertedBlob)
                   (take k batch) blobs
         ∧ convertedFiles (handleConvert browser batch outputFormat st).2
           = convertedFiles st
               ++ zip_with (λ file convertedBlob,
                              mkConverted
                                (Client.stem (name file) ++ "." ++ outputFormat)%string
                                (createObjectURL browser convertedBlob))
                           (take k batch) blobs
         ∧ (handleConvert browser batch outputFormat st).1
           = take (S k) batch ≫= (λ file, (convertBlob browser file outputFormat).1)
         ∧ (k = length batch →
            error (handleConvert browser batch outputFormat st).2 = "")
         ∧ (∀ file, batch !! k = Some file →
                    (convertBlob browser file outputFormat).2
                    = Throw (error (handleConvert browser batch outputFormat st).2))).
Proof.
  intros browser batch outputFormat st. unfold handleConvert. split.
  - intros [-> | ->]; [reflexivity|]. cbn. now rewrite orb_true_r.
  - intros Hbatch Hout.
    assert (Hguard : (length batch =? 0)%nat || negb (truthyStr outputFormat) = false).
    { apply orb_false_iff. split.
      - destruct batch; [contradiction|reflexivity].
      - unfold truthyStr. now destruct (String.eqb_spec outputFormat ""). }
    rewrite Hguard.
    exact (convertFiles_prefix browser outputFormat batch
             (mkState (convertedFiles st) "")).
Qed.

End BatchTheorem.

Section BatchTheoremWitnesses.

#[local] Existing Instance sampleUnicode.

Lemma handleConvert_stops_at_first_failure_witness :
  ∃ (k : nat) (blobs : list Blob),
    (k ≤ 3)%nat
    ∧ Forall2 (λ file convertedBlob,
                 (convertBlob refusedBrowser file "jpg").2 = Ok convertedBlob)
              (take k [mkFile "a.png" ""; mkFile "b.gif" ""; mkFile "c.png" ""]) blobs
    ∧ [mkConverted "a.jpg" "image-blob"]
      = [] ++ zip_with (λ file convertedBlob,
                          mkConverted (Client.stem (name file) ++ "." ++ "jpg")%string
                                      convertedBlob)
                       (take k [mkFile "a.png" ""; mkFile "b.gif" ""; mkFile "c.png" ""])
                       blobs
    ∧ [CanvasToImage (mkFile "a.png" "") "jpg";
       Fetch "/api/convert" (mkFile "b.gif" "") "jpg"]
      = take (S k) [mkFile "a.png" ""; mkFile "b.gif" ""; mkFile "c.png" ""]
          ≫= (λ file, (convertBlob refusedBrowser file "jpg").1)
    ∧ (k = 3 → "Server conversion failed: Bad Request" = "")
    ∧ (∀ file,
          [mkFile "a.png" ""; mkFile "b.gif" ""; mkFile "c.png" ""] !! k = Some file →
          (convertBlob refusedBrowser file "jpg").2
          = Throw "Server conversion failed: Bad Request").
Proof.
  exact (proj2 (handleConvert_stops_at_first_failure refusedBrowser
                  [mkFile "a.png" ""; mkFile "b.gif" ""; mkFile "c.png" ""] "jpg"
                  (mkState [] "")) ltac:(discriminate) ltac:(discriminate)).
Defined.

End BatchTheoremWitnesses.

(** ** Which thrown messages reach the caller *)

Section ErrorMessageFacts.

Context {unicode : Unicode}.

(** X18: The pdf-to-image and text-to-pdf converters replace whatever a library
    throws by their own fixed message, so a 500 answer on their branches
    carries that message, unless the converter returned and it was the
    response constructor that threw: then the answer carries the
    constructor's message.  The image-to-pdf converter lets the library's
    message through. *)
Theorem POST_fixed_and_passed_on_messages :
  (∀ (lib : Libraries) (buffer : Buffer) (outputFormat message : string),
      (convertPdfToImage lib buffer outputFormat).2 = Throw message →
      message = "PDF to image conversion failed")
  ∧ (∀ (lib : Libraries) (buffer : Buffer) (message : string),
        (convertTxtToPdf lib buffer).2 = Throw message →
        message = "Text to PDF conversion failed")
  ∧ (∀ (lib : Libraries) (file : File) (outputFormat : string),
        inputFormatOf (name file) = Some "pdf" →
        outputFormat ∈ ["jpg"; "jpeg"; "png"] →
        status (POST lib (mkRequest (Some file) (Some outputFormat))).2 = 500 →
        ((∃ thrown, (convertPdfToImage lib (content file) outputFormat).2 = Throw thrown)
         ∧ body (POST lib (mkRequest (Some file) (Some outputFormat))).2
           = JsonError "Conversion failed: PDF to image conversion failed")
        ∨ (∃ (bytes : Buffer) (message : string),
              (convertPdfToImage lib (content file) outputFormat).2 = Ok bytes
              ∧ headersError lib
                  (downloadHeaders (Spec.mimeOf outputFormat)
                     (stem (name file) ++ "." ++ outputFormat)%string) = Some message
              ∧ body (POST lib (mkRequest (Some file) (Some outputFormat))).2
                = JsonError ("Conversion failed: " ++ message)%string))
  ∧ (∀ (lib : Libraries) (file : File),
        inputFormatOf (name file) = Some "txt" →
        status (POST lib (mkRequest (Some file) (Some "pdf"))).2 = 500 →
        ((∃ thrown, (convertTxtToPdf lib (content file)).2 = Throw thrown)
         ∧ body (POST lib (mkRequest (Some file) (Some "pdf"))).2
           = JsonError "Conversion failed: Text to PDF conversion failed")
        ∨ (∃ (bytes : Buffer) (message : string),
              (convertTxtToPdf lib (content file)).2 = Ok bytes
              ∧ headersError lib
                  (downloadHeaders "application/pdf" (stem (name file) ++ ".pdf")%string)
                = Some message
              ∧ body (POST lib (mkRequest (Some file) (Some "pdf"))).2
                = JsonError ("Conversion failed: " ++ message)%string))
  ∧ (∀ (lib : Libraries) (file : File) (inputFormat message : string),
        inputFormatOf (name file) = Some inputFormat →
        inputFormat ∈ ["jpg"; "jpeg"; "png"; "gif"; "webp"] →
        sharp_metadata lib (content file) = Throw message →
        POST lib (mkRequest (Some file) (Some "pdf"))
        = ([ImageToPdf], json ("Conversion failed: " ++ message)%string 500)).
Proof.
  assert (Hpdf : ∀ (lib : Libraries) (buffer : Buffer) (outputFormat message : string),
             (convertPdfToImage lib buffer outputFormat).2 = Throw message →
             message = "PDF to image conversion failed").
  { intros lib buffer outputFormat message.
    unfold convertPdfToImage, enter, rethrow, bind, lift. cbn [fst snd].
    destruct (sharp_toBuffer lib (Create 595 842 3 (255, 255, 255)) Png) as [png|];
      [|cbn; congruence].
    destruct (_ || _);
      [destruct (sharp_toBuffer lib _ _); cbn; congruence|].
    destruct (String.eqb _ _);
      destruct (sharp_toBuffer lib _ _); cbn; congruence. }
  assert (Htxt : ∀ (lib : Libraries) (buffer : Buffer) (message : string),
             (convertTxtToPdf lib buffer).2 = Throw message →
             message = "Text to PDF conversion failed").
  { intros lib buffer message.
    unfold convertTxtToPdf, enter, rethrow, bind, lift. cbn [fst snd].
    destruct (layoutText lib buffer) as [doc|]; [|cbn; congruence].
    destruct (save lib doc); cbn; congruence. }
  split; [exact Hpdf|]. split; [exact Htxt|]. split; [|split].
  - intros lib file outputFormat Hfmt Hout.
    assert (Hne : outputFormat ≠ "") by (intros ->; not_in_list Hout).
    assert (Hd : dispatch lib file outputFormat
                 = Spec.serve lib (convertPdfToImage lib (content file) outputFormat)
                     file outputFormat).
    { unfold dispatch. rewrite Hfmt.
      repeat (apply elem_of_cons in Hout as [->|Hout]; [reflexivity|]). inversion Hout. }
    rewrite (POST_served lib file outputFormat _ Hne Hd). cbn [fst snd].
    destruct (convertPdfToImage lib (content file) outputFormat).2
      as [bytes|thrown] eqn:Hrun.
    + destruct (headersError lib _) as [message|]; [|discriminate].
      intros _. right. now exists bytes, message.
    + intros _. left. rewrite (Hpdf lib _ _ _ Hrun). split; [eauto|reflexivity].
  - intros lib file Hfmt.
    assert (Hd : dispatch lib file "pdf"
                 = Spec.serve lib (convertTxtToPdf lib (content file)) file "pdf").
    { unfold dispatch. rewrite Hfmt. reflexivity. }
    rewrite (POST_served lib file "pdf" _ ltac:(discriminate) Hd). cbn [fst snd].
    change (Spec.mimeOf "pdf") with "application/pdf".
    change (stem (name file) ++ "." ++ "pdf")%string
      with (stem (name file) ++ ".pdf")%string.
    destruct (convertTxtToPdf lib (content file)).2 as [bytes|thrown] eqn:Hrun.
    + destruct (headersError lib _) as [message|]; [|discriminate].
      intros _. right. now exists bytes, message.
    + intros _. left. rewrite (Htxt lib _ _ Hrun). split; [eauto|reflexivity].
  - intros lib file inputFormat message Hfmt Hin Hmeta.
    assert (Hd : dispatch lib file "pdf"
                 = Spec.serve lib (convertImageToPdf lib (content file)) file "pdf").
    { unfold dispatch. rewrite Hfmt.
      repeat (apply elem_of_cons in Hin as [->|Hin]; [reflexivity|]). inversion Hin. }
    rewrite (POST_served lib file "pdf" _ ltac:(discriminate) Hd).
    unfold convertImageToPdf, embedImagePage, enter, bind, lift.
    rewrite Hmeta. reflexivity.
Qed.

End ErrorMessageFacts.

Section ErrorMessageFactsWitnesses.

#[local] Existing Instance sampleUnicode.

Lemma POST_fixed_and_passed_on_messages_witness :
  ((∃ thrown, (convertTxtToPdf failingLibraries "hi").2 = Throw thrown)
   ∧ body (POST failingLibraries
             (mkRequest (Some (mkFile "notes.txt" "hi")) (Some "pdf"))).2
     = JsonError "Conversion failed: Text to PDF conversion failed")
  ∨ (∃ (bytes : Buffer) (message : string),
        (convertTxtToPdf failingLibraries "hi").2 = Ok bytes
        ∧ headersError failingLibraries (downloadHeaders "application/pdf" "notes.pdf")
          = Some message
        ∧ body (POST failingLibraries
                  (mkRequest (Some (mkFile "notes.txt" "hi")) (Some "pdf"))).2
          = JsonError ("Conversion failed: " ++ message)%string).
Proof.
  destruct POST_fixed_and_passed_on_messages as (_ & _ & _ & Htxt & _).
  apply (Htxt failingLibraries (mkFile "notes.txt" "hi")); reflexivity.
Defined.

End ErrorMessageFactsWitnesses.
